(** * Placement and boolean-construction helpers of the 6-axis-robot CAD macros

    The repository is a set of Python macros that drive a host CAD
    application (imported as [App], [Part], [Gui]).  Every recipe script
    carries its own copy of the same helper layer
    ([compound_rotation], [create_rotation], [cut], [make_hole],
    [join_parts], [create_centered_rectangle], [create_hollow_cylinder]);
    [src/useful_functions.py] is the reference copy.

    Conventions of this development.

    - Python numbers are read as real numbers ([R]): the arithmetic of the
      helpers ([/ 2], unary minus, [math.cos], [math.sin], [math.radians])
      is the exact one, rounding is not modelled.
    - The host API is not part of the repository.  Module [Host] fixes the
      part of it the helpers call: vectors, rotations, placements (spec,
      sections 3 and 6: a placement is a translation vector and a
      rotation).  A host rotation is stored by the application as a unit
      quaternion; here it is the 3x3 matrix of the linear map the
      quaternion denotes, so that [multiply] is the matrix product and
      [multVec] the matrix-vector product.
    - The active document is an explicit store: a list of objects in
      creation order, an object handle is its index.  Helper calls are
      computations in a state-and-exception monad over that store. *)

From Stdlib Require Import Reals Lra Lia List String Bool Arith.
Import ListNotations.

Local Open Scope R_scope.

(** ** The host API: vectors and rotations *)

Module Host.

(** Modelled from the spec: the host's vector type, [App.Vector(x, y, z)],
    is not in the repository; it is a triple of coordinates. *)
Record Vector : Type := mkVector { vx : R; vy : R; vz : R }.

(** Python [a - b] and [a + b] on host vectors. *)
Definition vsub (a b : Vector) : Vector :=
  mkVector (vx a - vx b) (vy a - vy b) (vz a - vz b).

Definition vadd (a b : Vector) : Vector :=
  mkVector (vx a + vx b) (vy a + vy b) (vz a + vz b).

(** Modelled from the spec: the host's rotation type, [App.Rotation], is
    not in the repository; a rotation is the linear map of a rigid
    transform (spec, section 3), given by its matrix (row-major). *)
Record Rotation : Type := mkRotation {
  r11 : R; r12 : R; r13 : R;
  r21 : R; r22 : R; r23 : R;
  r31 : R; r32 : R; r33 : R }.

(** [App.Rotation()] : the null rotation. *)
Definition Rotation_null : Rotation :=
  mkRotation 1 0 0
             0 1 0
             0 0 1.

(** Modelled from the spec: [a.multiply(b)] is the product [a * b], the
    rotation that applies [b] first and then [a] (spec, section 4.1: the
    next rotation pre-multiplies the running total). *)
Definition multiply (a b : Rotation) : Rotation :=
  mkRotation
    (r11 a * r11 b + r12 a * r21 b + r13 a * r31 b)
    (r11 a * r12 b + r12 a * r22 b + r13 a * r32 b)
    (r11 a * r13 b + r12 a * r23 b + r13 a * r33 b)
    (r21 a * r11 b + r22 a * r21 b + r23 a * r31 b)
    (r21 a * r12 b + r22 a * r22 b + r23 a * r32 b)
    (r21 a * r13 b + r22 a * r23 b + r23 a * r33 b)
    (r31 a * r11 b + r32 a * r21 b + r33 a * r31 b)
    (r31 a * r12 b + r32 a * r22 b + r33 a * r32 b)
    (r31 a * r13 b + r32 a * r23 b + r33 a * r33 b).

(** Modelled from the spec: [a.multVec(v)] is the image of the vector [v]
    under the rotation [a] (spec, section 8: rotation . (0,0,height/2)). *)
Definition multVec (a : Rotation) (v : Vector) : Vector :=
  mkVector
    (r11 a * vx v + r12 a * vy v + r13 a * vz v)
    (r21 a * vx v + r22 a * vy v + r23 a * vz v)
    (r31 a * vx v + r32 a * vy v + r33 a * vz v).

(** [math.radians]. *)
Definition radians (deg : R) : R := deg * PI / 180.

(** Elementary rotations about the world axes, angle in radians. *)
Definition rot_x (t : R) : Rotation :=
  mkRotation 1 0       0
             0 (cos t) (- sin t)
             0 (sin t) (cos t).

Definition rot_y (t : R) : Rotation :=
  mkRotation (cos t)   0 (sin t)
             0         1 0
             (- sin t) 0 (cos t).

Definition rot_z (t : R) : Rotation :=
  mkRotation (cos t) (- sin t) 0
             (sin t) (cos t)   0
             0       0         1.

(** Modelled from the spec: the host constructor called with three numbers,
    [App.Rotation(a, b, c)], is not in the repository.  The spec (section
    4.1) only says that the numbers are degrees about the canonical axes;
    the host reads them as Euler angles, yaw about Z, pitch about Y and
    roll about X, and builds [Rz(yaw) * Ry(pitch) * Rx(roll)].  The recipes
    rely on that reading: [(0,90,0)] lays a hole along X and
    [(angle_deg,0,0)] then turns it about the vertical axis to the angular
    position of the feature. *)
Definition Rotation_ypr (yaw pitch roll : R) : Rotation :=
  multiply (rot_z (radians yaw))
           (multiply (rot_y (radians pitch)) (rot_x (radians roll))).

(** Modelled from the spec: the host constructor called with an axis and an
    angle, [App.Rotation(axis, angle)], is not in the repository; it is
    the rotation by [angle] degrees about the non-null [axis] (Rodrigues'
    formula on the normalised axis). *)
Definition Rotation_axis_angle (axis : Vector) (deg : R) : Rotation :=
  let n := sqrt (vx axis * vx axis + vy axis * vy axis + vz axis * vz axis) in
  let ux := vx axis / n in
  let uy := vy axis / n in
  let uz := vz axis / n in
  let c := cos (radians deg) in
  let s := sin (radians deg) in
  mkRotation
    (c + ux * ux * (1 - c))      (ux * uy * (1 - c) - uz * s) (ux * uz * (1 - c) + uy * s)
    (uy * ux * (1 - c) + uz * s) (c + uy * uy * (1 - c))      (uy * uz * (1 - c) - ux * s)
    (uz * ux * (1 - c) - uy * s) (uz * uy * (1 - c) + ux * s) (c + uz * uz * (1 - c)).

(** Modelled from the spec: [App.Placement(base, rotation)], a translation
    vector and a rotation (spec, sections 3 and 6). *)
Record Placement : Type := mkPlacement { Base : Vector; Rotation_ : Rotation }.

(** The placement a freshly added object has. *)
Definition Placement_null : Placement :=
  mkPlacement (mkVector 0 0 0) Rotation_null.

End Host.

Import Host.

(** ** Rotation helpers ([useful_functions.py], lines 14-23) *)

(** A rotation argument of the helpers: a Python 3-tuple of degrees. *)
Definition Triple : Type := (R * R * R)%type.

(** [create_rotation] : the tuple is unpacked into the positional arguments
    of [App.Rotation]; its three entries are read by the host as yaw,
    pitch and roll. *)
Definition create_rotation (rotation_in_degrees_tuple : Triple) : Rotation :=
  let '(a, b, c) := rotation_in_degrees_tuple in Rotation_ypr a b c.

(** The [for] loop of [compound_rotation], with its accumulator. *)
Fixpoint compound_rotation_loop (compound : Rotation) (l : list Triple) : Rotation :=
  match l with
  | [] => compound
  | rotation :: rest =>
      compound_rotation_loop (multiply (create_rotation rotation) compound) rest
  end.

Definition compound_rotation (rotation_in_degrees_list_of_tuples : list Triple) : Rotation :=
  compound_rotation_loop (Rotation_axis_angle (mkVector 0 0 1) 0)
                         rotation_in_degrees_list_of_tuples.

(** [App.Vector] applied to an unpacked Python 3-tuple of coordinates. *)
Definition Vector_of (position : Triple) : Vector :=
  let '(a, b, c) := position in mkVector a b c.

(** The [hole_rotation] argument of [make_hole] is either one tuple or a
    list of tuples; the helper tells them apart with
    [type(hole_rotation) is tuple]. *)
Inductive RotationArg : Type :=
  | Tuple (t : Triple)
  | ListOf (l : list Triple).

(** ** The active document *)

(** An object handle: the position of the object in the document. *)
Definition handle : Type := nat.

(** The object kinds the helpers create with [addObject]. *)
Inductive ObjectType : Type :=
  | Part_Cylinder    (* "Part::Cylinder" *)
  | Part_Box         (* "Part::Box" *)
  | Part_Cut         (* "Part::Cut" *)
  | Part_Fuse        (* "Part::Fuse" *)
  | Part_Compound    (* "Part::Compound" *)
  | Part_Feature.    (* "Part::Feature" *)

(** Shape values built with the [Part] module outside the document
    ([create_hollow_cylinder]). *)
Inductive TopoShape : Type :=
  | makeCylinder (radius height : R)
  | translate (s : TopoShape) (v : Vector)
  | shape_cut (s tool : TopoShape).

(** A document object with the properties the helpers assign. *)
Module Obj.

Record t : Type := mk {
  TypeId : ObjectType;
  Name : string;
  Radius : R;
  Height : R;
  Length : R;
  Width : R;
  Placement : Host.Placement;
  Base : option handle;
  Tool : option handle;
  Links : list handle;
  Shape : option TopoShape }.

(** The object [addObject] returns; the host's default dimensions are
    radius 2 and 10 for every length. *)
Definition fresh (ty : ObjectType) (name : string) : t :=
  mk ty name 2 10 10 10 Placement_null None None [] None.

Definition set_Radius (v : R) (o : t) : t :=
  mk (TypeId o) (Name o) v (Height o) (Length o) (Width o)
     (Placement o) (Base o) (Tool o) (Links o) (Shape o).

Definition set_Height (v : R) (o : t) : t :=
  mk (TypeId o) (Name o) (Radius o) v (Length o) (Width o)
     (Placement o) (Base o) (Tool o) (Links o) (Shape o).

Definition set_Length (v : R) (o : t) : t :=
  mk (TypeId o) (Name o) (Radius o) (Height o) v (Width o)
     (Placement o) (Base o) (Tool o) (Links o) (Shape o).

Definition set_Width (v : R) (o : t) : t :=
  mk (TypeId o) (Name o) (Radius o) (Height o) (Length o) v
     (Placement o) (Base o) (Tool o) (Links o) (Shape o).

Definition set_Placement (v : Host.Placement) (o : t) : t :=
  mk (TypeId o) (Name o) (Radius o) (Height o) (Length o) (Width o)
     v (Base o) (Tool o) (Links o) (Shape o).

Definition set_Base (v : handle) (o : t) : t :=
  mk (TypeId o) (Name o) (Radius o) (Height o) (Length o) (Width o)
     (Placement o) (Some v) (Tool o) (Links o) (Shape o).

Definition set_Tool (v : handle) (o : t) : t :=
  mk (TypeId o) (Name o) (Radius o) (Height o) (Length o) (Width o)
     (Placement o) (Base o) (Some v) (Links o) (Shape o).

Definition set_Links (v : list handle) (o : t) : t :=
  mk (TypeId o) (Name o) (Radius o) (Height o) (Length o) (Width o)
     (Placement o) (Base o) (Tool o) v (Shape o).

Definition set_Shape (v : TopoShape) (o : t) : t :=
  mk (TypeId o) (Name o) (Radius o) (Height o) (Length o) (Width o)
     (Placement o) (Base o) (Tool o) (Links o) (Some v).

(** [obj.Placement.Rotation = r] and [obj.Placement.Base = b] : the
    host writes the changed placement back to the object. *)
Definition set_Placement_Rotation (r : Rotation) (o : t) : t :=
  set_Placement (mkPlacement (Host.Base (Placement o)) r) o.

Definition set_Placement_Base (b : Vector) (o : t) : t :=
  set_Placement (mkPlacement b (Rotation_ (Placement o))) o.

End Obj.

(** The document: its objects in creation order. *)
Definition Doc : Type := list Obj.t.

(** Exceptions a helper call can end with. *)
Inductive Exn : Type :=
  | ValueError (msg : string)
  | RecomputeError.

(** The host kernel decides whether a recomputation of the document goes
    through; the helpers only see the outcome. *)
Class Kernel : Type := { kernel_ok : Doc -> bool }.

(** ** Calls against the document: state and exceptions *)

(** A call runs on the document, changes it in place and either returns a
    value or raises.  There is no handler anywhere in the sources, so the
    document a raising call leaves is the final one. *)
Definition M (A : Type) : Type := Doc -> Doc * (Exn + A).

Definition ret {A : Type} (a : A) : M A := fun d => (d, inr a).

Definition raise {A : Type} (e : Exn) : M A := fun d => (d, inl e).

Definition bind {A B : Type} (c : M A) (k : A -> M B) : M B :=
  fun d =>
    match c d with
    | (d', inr a) => k a d'
    | (d', inl e) => (d', inl e)
    end.

Notation "x <- c ;; k" := (bind c (fun x => k))
  (at level 61, c at next level, right associativity).
Notation "c ;;; k" := (bind c (fun _ => k))
  (at level 61, right associativity).

(** Change the object behind a handle; other objects are untouched. *)
Fixpoint modify (h : handle) (f : Obj.t -> Obj.t) (d : Doc) : Doc :=
  match d, h with
  | [], _ => []
  | o :: rest, O => f o :: rest
  | o :: rest, S h' => o :: modify h' f rest
  end.

(** [doc.addObject(type, name)] : a new object at the end of the document. *)
Definition addObject (ty : ObjectType) (name : string) : M handle :=
  fun d => (d ++ [Obj.fresh ty name], inr (List.length d)).

(** [obj.prop = value]. *)
Definition setattr (h : handle) (f : Obj.t -> Obj.t) : M unit :=
  fun d => (modify h f d, inr tt).

(** [doc.recompute()]. *)
Definition recompute `{K : Kernel} : M unit :=
  fun d => if kernel_ok d then (d, inr tt) else (d, inl RecomputeError).

(** ** The helper layer ([useful_functions.py]) *)

Section Helpers.

Context `{K : Kernel}.

(** [create_cylinder], lines 6-12. *)
Definition create_cylinder (height radius : R) (position : Triple) : M handle :=
  cylinder <- addObject Part_Cylinder "Cylinder" ;;
  setattr cylinder (Obj.set_Height height) ;;;
  setattr cylinder (Obj.set_Radius radius) ;;;
  setattr cylinder
    (Obj.set_Placement
       (mkPlacement (Vector_of position) (Rotation_axis_angle (mkVector 0 0 1) 0))) ;;;
  ret cylinder.

(** [cut], lines 26-32. *)
Definition cut (base_cylinder tool_cylinder : handle) : M handle :=
  cut <- addObject Part_Cut "Cut" ;;
  setattr cut (Obj.set_Base base_cylinder) ;;;
  setattr cut (Obj.set_Tool tool_cylinder) ;;;
  recompute ;;;
  ret cut.

(** The rotation [make_hole] gives the tool, line 53. *)
Definition hole_rotation_of (hole_rotation : RotationArg) : Rotation :=
  match hole_rotation with
  | Tuple t => create_rotation t
  | ListOf l => compound_rotation l
  end.

(** The back-shift of line 58, on the tool object. *)
Definition shift_back (hole_height : R) (o : Obj.t) : Obj.t :=
  Obj.set_Placement_Base
    (vsub (Base (Obj.Placement o))
          (multVec (Rotation_ (Obj.Placement o)) (mkVector 0 0 (hole_height / 2))))
    o.

(** [make_hole], lines 36-66. *)
Definition make_hole (part : handle) (hole_diameter hole_height : R)
           (hole_position : Triple) (hole_rotation : RotationArg)
           (through_hole : bool) : M handle :=
  hole <- addObject Part_Cylinder "Hole" ;;
  setattr hole (Obj.set_Radius (hole_diameter / 2)) ;;;
  setattr hole (Obj.set_Height hole_height) ;;;
  setattr hole
    (Obj.set_Placement
       (mkPlacement (Vector_of hole_position)
                    (Rotation_axis_angle (mkVector 0 0 1) 0))) ;;;
  setattr hole (Obj.set_Placement_Rotation (hole_rotation_of hole_rotation)) ;;;
  (if through_hole then setattr hole (shift_back hole_height) else ret tt) ;;;
  cut <- addObject Part_Cut "Cut" ;;
  setattr cut (Obj.set_Base part) ;;;
  setattr cut (Obj.set_Tool hole) ;;;
  recompute ;;;
  ret cut.

(** [join_parts], lines 68-84. *)
Definition join_parts (part1 part2 : handle) : M handle :=
  fused_part <- addObject Part_Fuse "FusedPart" ;;
  setattr fused_part (Obj.set_Base part1) ;;;
  setattr fused_part (Obj.set_Tool part2) ;;;
  recompute ;;;
  ret fused_part.

(** [create_centered_rectangle], lines 86-110; the same text is in
    every recipe from [create_base_v2.py] on. *)
Definition create_centered_rectangle (length width height : R) (label : string)
  : M handle :=
  rectangle <- addObject Part_Box "CenteredRectangle" ;;
  setattr rectangle (Obj.set_Length length) ;;;
  setattr rectangle (Obj.set_Width width) ;;;
  setattr rectangle (Obj.set_Height height) ;;;
  setattr rectangle
    (Obj.set_Placement
       (mkPlacement (mkVector (- length / 2) (- width / 2) 0) Rotation_null)) ;;;
  compound <- addObject Part_Compound label ;;
  setattr compound (Obj.set_Links [rectangle]) ;;;
  recompute ;;;
  ret compound.

(** [create_hollow_cylinder], lines 279-305. *)
Definition create_hollow_cylinder (outer_radius inner_radius height : R)
           (position : Triple) : M handle :=
  if Rge_dec inner_radius outer_radius then
    raise (ValueError "Inner radius must be smaller than outer radius")
  else
    let outer_cylinder :=
      translate (makeCylinder outer_radius height) (Vector_of position) in
    let inner_cylinder :=
      translate (makeCylinder inner_radius height) (Vector_of position) in
    let hollow_cylinder := shape_cut outer_cylinder inner_cylinder in
    cylinder_part <- addObject Part_Feature "HollowCylinder" ;;
    setattr cylinder_part (Obj.set_Shape hollow_cylinder) ;;;
    ret cylinder_part.

End Helpers.

(** ** The first version of the centred box

    [create_base_v1.py] (lines 84-108) and its copy [unnamed/part_000]
    (lines 85-109) carry an older text of [create_centered_rectangle]: the
    placement vector has [width] and [length] exchanged. *)

Module create_base_v1.
Section Helpers.

Context `{K : Kernel}.

Definition create_centered_rectangle (length width height : R) (label : string)
  : M handle :=
  rectangle <- addObject Part_Box "CenteredRectangle" ;;
  setattr rectangle (Obj.set_Length length) ;;;
  setattr rectangle (Obj.set_Width width) ;;;
  setattr rectangle (Obj.set_Height height) ;;;
  setattr rectangle
    (Obj.set_Placement
       (mkPlacement (mkVector (- width / 2) (- length / 2) 0) Rotation_null)) ;;;
  compound <- addObject Part_Compound label ;;
  setattr compound (Obj.set_Links [rectangle]) ;;;
  recompute ;;;
  ret compound.

End Helpers.
End create_base_v1.

Module part_000.
Section Helpers.

Context `{K : Kernel}.

Definition create_centered_rectangle (length width height : R) (label : string)
  : M handle :=
  rectangle <- addObject Part_Box "CenteredRectangle" ;;
  setattr rectangle (Obj.set_Length length) ;;;
  setattr rectangle (Obj.set_Width width) ;;;
  setattr rectangle (Obj.set_Height height) ;;;
  setattr rectangle
    (Obj.set_Placement
       (mkPlacement (mkVector (- width / 2) (- length / 2) 0) Rotation_null)) ;;;
  compound <- addObject Part_Compound label ;;
  setattr compound (Obj.set_Links [rectangle]) ;;;
  recompute ;;;
  ret compound.

(** The only call of the helper in that script (line 164), with the
    values of lines 149-151. *)
Definition inner_barrier_height : R := 20.
Definition inner_barrier_width : R := 10.
Definition inner_barrier_length : R := 10.

Definition main_rectangle (label : string) : M handle :=
  create_centered_rectangle
    inner_barrier_length inner_barrier_width inner_barrier_height label.

End Helpers.
End part_000.

(** ** Helper calls as script statements *)

(** The helper calls a recipe script is made of. *)
Inductive Call : Type :=
  | Call_create_cylinder (height radius : R) (position : Triple)
  | Call_cut (base_cylinder tool_cylinder : handle)
  | Call_make_hole (part : handle) (hole_diameter hole_height : R)
                   (hole_position : Triple) (hole_rotation : RotationArg)
                   (through_hole : bool)
  | Call_join_parts (part1 part2 : handle)
  | Call_create_centered_rectangle (length width height : R) (label : string)
  | Call_create_hollow_cylinder (outer_radius inner_radius height : R)
                                (position : Triple).

Definition exec `{K : Kernel} (c : Call) : M handle :=
  match c with
  | Call_create_cylinder height radius position =>
      create_cylinder height radius position
  | Call_cut base_cylinder tool_cylinder => cut base_cylinder tool_cylinder
  | Call_make_hole part hole_diameter hole_height hole_position hole_rotation
                   through_hole =>
      make_hole part hole_diameter hole_height hole_position hole_rotation
                through_hole
  | Call_join_parts part1 part2 => join_parts part1 part2
  | Call_create_centered_rectangle length width height label =>
      create_centered_rectangle length width height label
  | Call_create_hollow_cylinder outer_radius inner_radius height position =>
      create_hollow_cylinder outer_radius inner_radius height position
  end.

(** [after] has every object of [before], unchanged and under the same
    handle; objects were only added. *)
Definition retains (before after : Doc) : Prop :=
  exists added : Doc, after = before ++ added.

(** The objects the boolean helpers leave in the document. *)
Definition hole_tool (hole_diameter hole_height : R) (hole_position : Triple)
           (hole_rotation : RotationArg) (through_hole : bool) : Obj.t :=
  let rotation := hole_rotation_of hole_rotation in
  let position :=
    if through_hole
    then vsub (Vector_of hole_position)
              (multVec rotation (mkVector 0 0 (hole_height / 2)))
    else Vector_of hole_position in
  Obj.mk Part_Cylinder "Hole" (hole_diameter / 2) hole_height 10 10
         (mkPlacement position rotation) None None [] None.

Definition boolean_object (ty : ObjectType) (name : string) (base tool : handle)
  : Obj.t :=
  Obj.mk ty name 2 10 10 10 Placement_null (Some base) (Some tool) [] None.

(** The objects [create_centered_rectangle] and [create_hollow_cylinder]
    leave in the document. *)
Definition centered_box (length width height : R) (offset : Vector) : Obj.t :=
  Obj.mk Part_Box "CenteredRectangle" 2 height length width
         (mkPlacement offset Rotation_null) None None [] None.

Definition compound_of (label : string) (links : list handle) : Obj.t :=
  Obj.mk Part_Compound label 2 10 10 10 Placement_null None None links None.

Definition hollow_cylinder_part (outer_radius inner_radius height : R)
           (position : Triple) : Obj.t :=
  Obj.mk Part_Feature "HollowCylinder" 2 10 10 10 Placement_null None None []
         (Some (shape_cut
                  (translate (makeCylinder outer_radius height) (Vector_of position))
                  (translate (makeCylinder inner_radius height) (Vector_of position)))).

(** ** The radial hole loop of [create_base_v2.py] (lines 112-152) *)

Module create_base_v2.

Definition HOLE_INF : R := 1000.

Definition tolerance : R := 0.5.
Definition m5_size : R := 2.5 + tolerance * 2.
Definition base_cylinder_radius : R := 95.
Definition base_cylinder_height : R := 5.
Definition number_of_holes : nat := 8.

(** Line 137. *)
Definition angle (i : nat) : R :=
  (360 / INR number_of_holes * INR i) + 360 / INR number_of_holes / 2.

(** Lines 140 and 147. *)
Definition first_hole_distance_from_center : R := base_cylinder_radius - 10.
Definition second_hole_distance_from_center : R := base_cylinder_radius - 25.

(** Lines 142-143 and 149-150, for a distance from the centre. *)
Definition x (distance_from_center : R) (i : nat) : R :=
  cos (radians (angle i)) * distance_from_center.
Definition y (distance_from_center : R) (i : nat) : R :=
  sin (radians (angle i)) * distance_from_center.

(** A [for i in range(...)] loop that carries one variable. *)
Fixpoint for_each {A : Type} (range : list nat) (body : A -> nat -> M A) (a : A)
  : M A :=
  match range with
  | [] => ret a
  | i :: rest => a' <- body a i ;; for_each rest body a'
  end.

Section Main.

Context `{K : Kernel}.

(** The body of the loop, lines 137-152. *)
Definition holes_body (base_cylinder : handle) (i : nat) : M handle :=
  base_cylinder <-
    make_hole base_cylinder (m5_size * 2) HOLE_INF
              (x first_hole_distance_from_center i,
               y first_hole_distance_from_center i, 0)
              (Tuple (0, 0, 0)) true ;;
  base_cylinder <-
    make_hole base_cylinder (m5_size * 2) HOLE_INF
              (x second_hole_distance_from_center i,
               y second_hole_distance_from_center i, 0)
              (Tuple (0, 0, 0)) true ;;
  ret base_cylinder.

(** Lines 132-152. *)
Definition main_holes : M handle :=
  base_cylinder <-
    create_cylinder base_cylinder_height base_cylinder_radius (0, 0, 0) ;;
  for_each (seq 0 number_of_holes) holes_body base_cylinder.

End Main.

(** The tools of iteration [i]. *)
Definition first_tool (i : nat) : Obj.t :=
  hole_tool (m5_size * 2) HOLE_INF
            (x first_hole_distance_from_center i,
             y first_hole_distance_from_center i, 0)
            (Tuple (0, 0, 0)) true.

Definition second_tool (i : nat) : Obj.t :=
  hole_tool (m5_size * 2) HOLE_INF
            (x second_hole_distance_from_center i,
             y second_hole_distance_from_center i, 0)
            (Tuple (0, 0, 0)) true.

End create_base_v2.

(** ** What the objects of a document stand for

    The solid-modelling kernel is the host's and is not in the repository
    (spec, sections 1 and 6).  A solid is read as the set of points of its
    volume. *)

Definition PointSet : Type := Vector -> Prop.

Definition empty_solid : PointSet := fun _ => False.

(** Modelled from the spec: the host's cylinder and box primitives are not
    in the repository.  A cylinder stands on its local origin along its
    local Z axis (spec, section 4.2: the tool is shifted along its local Z
    axis by half its height); a box stands on its local corner (spec,
    section 4.4: the offset (-length/2, -width/2, 0) centres it in X and
    Y and leaves it on Z = 0). *)
Definition in_cylinder (radius height : R) : PointSet :=
  fun q => vx q * vx q + vy q * vy q <= radius * radius /\ 0 <= vz q <= height.

Definition in_box (length width height : R) : PointSet :=
  fun q => 0 <= vx q <= length /\ 0 <= vy q <= width /\ 0 <= vz q <= height.

(** Modelled from the spec: a placement moves a solid as a rigid transform,
    rotation first and translation second (spec, section 3). *)
Definition placed (pl : Placement) (s : PointSet) : PointSet :=
  fun p => exists q, s q /\ p = vadd (Base pl) (multVec (Rotation_ pl) q).

(** Modelled from the spec: the shape operations of the host's [Part]
    module are not in the repository; a cut is the subtraction of two
    solids (spec, glossary). *)
Fixpoint in_shape (s : TopoShape) : PointSet :=
  match s with
  | makeCylinder radius height => in_cylinder radius height
  | translate s' v => fun p => in_shape s' (vsub p v)
  | shape_cut s' tool => fun p => in_shape s' p /\ ~ in_shape tool p
  end.

Definition linked (earlier : list PointSet) (h : option handle) : PointSet :=
  match h with
  | Some h' => nth h' earlier empty_solid
  | None => empty_solid
  end.

(** Modelled from the spec: the host's boolean engine is not in the
    repository.  The solid of a boolean cut is the subtraction and that of
    a boolean fuse the union of the solids of its two operands (spec,
    glossary); a compound groups its links.  The solid of one object is
    built from the solids of the objects created before it. *)
Definition solid_of_object (earlier : list PointSet) (o : Obj.t) : PointSet :=
  match Obj.TypeId o with
  | Part_Cylinder =>
      placed (Obj.Placement o) (in_cylinder (Obj.Radius o) (Obj.Height o))
  | Part_Box =>
      placed (Obj.Placement o)
             (in_box (Obj.Length o) (Obj.Width o) (Obj.Height o))
  | Part_Cut =>
      fun p => linked earlier (Obj.Base o) p /\ ~ linked earlier (Obj.Tool o) p
  | Part_Fuse =>
      fun p => linked earlier (Obj.Base o) p \/ linked earlier (Obj.Tool o) p
  | Part_Compound =>
      placed (Obj.Placement o)
             (fun q => exists h, In h (Obj.Links o) /\ nth h earlier empty_solid q)
  | Part_Feature =>
      match Obj.Shape o with
      | Some s => placed (Obj.Placement o) (in_shape s)
      | None => empty_solid
      end
  end.

Fixpoint solids_from (earlier : list PointSet) (todo : Doc) : list PointSet :=
  match todo with
  | [] => earlier
  | o :: rest => solids_from (earlier ++ [solid_of_object earlier o]) rest
  end.

(** The solid behind a handle of the document. *)
Definition solid (d : Doc) (h : handle) : PointSet :=
  nth h (solids_from [] d) empty_solid.

(** A call that only adds objects: the document it leaves has all earlier
    objects, unchanged and under their handles, and the handle it returns
    is one of the added objects. *)
Definition only_adds (c : M handle) : Prop :=
  forall d : Doc,
    retains d (fst (c d))
    /\ incl d (fst (c d))
    /\ firstn (List.length d) (fst (c d)) = d
    /\ match snd (c d) with
       | inr h => (List.length d <= h < List.length (fst (c d)))%nat
       | inl _ => True
       end.

(** Two kernels to run the helpers on: one accepts every document, the
    other refuses every document of three objects or more. *)
Definition accepting_kernel : Kernel := {| kernel_ok := fun _ => true |}.

Definition small_kernel : Kernel :=
  {| kernel_ok := fun d => Nat.ltb (List.length d) 3 |}.

(** Two documents to run the helpers on: a base plate alone, and a unit
    cylinder alone. *)
Definition base_plate : Doc := fst (create_cylinder 5 95 (0, 0, 0) []).

Definition unit_cylinder : Doc := fst (create_cylinder 1 1 (0, 0, 0) []).

(** The unit cylinder after a hole of diameter 1 asked for at (10,0,0),
    and the base plate after the radial hole loop, both on the kernel
    that accepts everything. *)
Definition holed_unit_cylinder : Doc :=
  fst (make_hole (K := accepting_kernel) 0%nat 1 1 (10, 0, 0) (Tuple (0, 0, 0))
                 false unit_cylinder).

Definition drilled_base : Doc :=
  fst (create_base_v2.main_holes (K := accepting_kernel) []).

(** ** More of the helper layer ([useful_functions.py]) *)

(** Python [-v] on a host vector. *)
Definition vneg (v : Vector) : Vector :=
  mkVector (- vx v) (- vy v) (- vz v).

(** Modelled from the spec: [placement.multVec(v)] is not in the repository;
    a placement is a rigid transform (spec, section 3), it rotates [v] and
    then translates it by its base. *)
Definition Placement_multVec (pl : Placement) (v : Vector) : Vector :=
  vadd (Base pl) (multVec (Rotation_ pl) v).

(** The square of the length of a vector. *)
Definition norm2 (v : Vector) : R :=
  vx v * vx v + vy v * vy v + vz v * vz v.

(** The [axis] argument of [rotate_object_around_center] is a tuple or a
    host vector; the helper tells them apart with
    [isinstance(axis, tuple)]. *)
Inductive AxisArg : Type :=
  | AxisTuple (t : Triple)
  | AxisVector (v : Vector).

(** What the helpers ask the host about the document: the object that
    carries a name ([doc.getObject(name)], [None] when there is none) and
    the centre of the bounding box of an object
    ([obj.Shape.BoundBox.Center]).  Both are the host's to answer. *)
Class Queries : Type := {
  getObject : Doc -> string -> option handle;
  BoundBox_Center : Doc -> handle -> Vector }.

(** Read something off the document without changing it. *)
Definition ask {A : Type} (f : Doc -> A) : M A := fun d => (d, inr (f d)).

(** [rotate_object_around_center], lines 112-139. *)
Definition rotate_object_around_center `{Q : Queries}
           (object_name : string) (axis : AxisArg) (angle : R) : M unit :=
  obj <- ask (fun d => getObject d object_name) ;;
  match obj with
  | None => raise (ValueError ("Object not found: " ++ object_name)%string)
  | Some obj =>
      let axis :=
        match axis with
        | AxisTuple t => Vector_of t
        | AxisVector v => v
        end in
      center <- ask (fun d => BoundBox_Center d obj) ;;
      let rotation := Rotation_axis_angle axis angle in
      let new_placement := mkPlacement center rotation in
      let new_placement :=
        mkPlacement (Placement_multVec new_placement (vneg center))
                    (Rotation_ new_placement) in
      setattr obj (Obj.set_Placement new_placement)
  end.

(** [reset_rotation], lines 185-195. *)
Definition reset_rotation `{K : Kernel} (obj : handle) : M handle :=
  new_obj <- create_centered_rectangle 0.001 0.001 0.001 "ResetRotation" ;;
  setattr new_obj
    (Obj.set_Placement
       (mkPlacement (mkVector 100000 100000 100000)
                    (Rotation_axis_angle (mkVector 0 0 1) 0))) ;;;
  obj <- cut obj new_obj ;;
  ret obj.

(** The three corners [v1], [v2], [v3] that [create_centered_triangle]
    computes for its polygon, lines 209-212. *)
Definition create_centered_triangle_vertices (side_length : R)
  : Vector * Vector * Vector :=
  let h := sqrt 3 / 2 * side_length in
  let v1 := mkVector (- side_length / 2) (- h / 3) 0 in
  let v2 := mkVector (side_length / 2) (- h / 3) 0 in
  let v3 := mkVector 0 (2 * h / 3) 0 in
  (v1, v2, v3).

(** The solid of a cylinder object, whatever was created before it. *)
Definition cylinder_solid (o : Obj.t) : PointSet :=
  placed (Obj.Placement o) (in_cylinder (Obj.Radius o) (Obj.Height o)).

(** The object [reset_rotation] parks far away, and the cube it fills. *)
Definition parked_compound (rectangle : handle) : Obj.t :=
  Obj.mk Part_Compound "ResetRotation" 2 10 10 10
         (mkPlacement (mkVector 100000 100000 100000)
                      (Rotation_axis_angle (mkVector 0 0 1) 0))
         None None [rectangle] None.

Definition parked_cube : PointSet :=
  fun p => 100000 - 0.0005 <= vx p <= 100000 + 0.0005
           /\ 100000 - 0.0005 <= vy p <= 100000 + 0.0005
           /\ 100000 <= vz p <= 100000 + 0.001.

(** A host that finds an object by the first name that matches and takes
    the base of its placement for the centre of its bounding box; it
    serves to run [rotate_object_around_center]. *)
Fixpoint find_name (name : string) (d : Doc) (h : handle) : option handle :=
  match d with
  | [] => None
  | o :: rest =>
      if String.eqb (Obj.Name o) name then Some h else find_name name rest (S h)
  end.

Definition plain_queries : Queries :=
  {| getObject := fun d name => find_name name d 0%nat;
     BoundBox_Center := fun d h =>
       match nth_error d h with
       | Some o => Base (Obj.Placement o)
       | None => mkVector 0 0 0
       end |}.

(** ** Facts about the host model *)

Ltac rot_eq :=
  unfold multiply, multVec, vsub, vadd, Rotation_null; simpl;
  f_equal; try ring.

Lemma radians_0 : radians 0 = 0.
Proof. unfold radians. field. Qed.

Lemma radians_90 : radians 90 = PI / 2.
Proof. unfold radians. field. Qed.

Lemma radians_45 : radians 45 = PI / 4.
Proof. unfold radians. field. Qed.

Lemma rot_x_0 : rot_x 0 = Rotation_null.
Proof. unfold rot_x, Rotation_null. rewrite cos_0, sin_0, Ropp_0. reflexivity. Qed.

Lemma rot_y_0 : rot_y 0 = Rotation_null.
Proof. unfold rot_y, Rotation_null. rewrite cos_0, sin_0, Ropp_0. reflexivity. Qed.

Lemma rot_z_0 : rot_z 0 = Rotation_null.
Proof. unfold rot_z, Rotation_null. rewrite cos_0, sin_0, Ropp_0. reflexivity. Qed.

Lemma multiply_null_r (a : Rotation) : multiply a Rotation_null = a.
Proof. destruct a. rot_eq. Qed.

Lemma multiply_null_l (a : Rotation) : multiply Rotation_null a = a.
Proof. destruct a. rot_eq. Qed.

Lemma multiply_assoc (a b c : Rotation) :
  multiply a (multiply b c) = multiply (multiply a b) c.
Proof. destruct a, b, c. rot_eq. Qed.

Lemma multVec_null (v : Vector) : multVec Rotation_null v = v.
Proof. destruct v. rot_eq. Qed.

Lemma multVec_multiply (a b : Rotation) (v : Vector) :
  multVec (multiply a b) v = multVec a (multVec b v).
Proof. destruct a, b, v. rot_eq. Qed.

(** The seed of [compound_rotation], a rotation of 0 degrees about Z, is
    the null rotation. *)
Lemma Rotation_axis_Z_0 : Rotation_axis_angle (mkVector 0 0 1) 0 = Rotation_null.
Proof.
  unfold Rotation_axis_angle, Rotation_null; simpl.
  rewrite radians_0, cos_0, sin_0.
  replace (0 * 0 + 0 * 0 + 1 * 1) with 1 by ring.
  rewrite sqrt_1.
  f_equal; field.
Qed.

Lemma Rotation_ypr_0 : Rotation_ypr 0 0 0 = Rotation_null.
Proof.
  unfold Rotation_ypr. rewrite radians_0, rot_x_0, rot_y_0, rot_z_0.
  now rewrite !multiply_null_l.
Qed.

Lemma Rotation_ypr_yaw (a : R) : Rotation_ypr a 0 0 = rot_z (radians a).
Proof.
  unfold Rotation_ypr. rewrite radians_0, rot_x_0, rot_y_0.
  now rewrite !multiply_null_r.
Qed.

Lemma Rotation_ypr_pitch (b : R) : Rotation_ypr 0 b 0 = rot_y (radians b).
Proof.
  unfold Rotation_ypr. rewrite radians_0, rot_x_0, rot_z_0.
  now rewrite multiply_null_r, multiply_null_l.
Qed.

Lemma Rotation_ypr_roll (c : R) : Rotation_ypr 0 0 c = rot_x (radians c).
Proof.
  unfold Rotation_ypr. rewrite radians_0, rot_y_0, rot_z_0.
  now rewrite !multiply_null_l.
Qed.

(** ** Rotation composition *)

Section CompoundRotation.

(** The loop is a left fold of [next.multiply(accumulated)]. *)
Lemma compound_rotation_loop_fold (l : list Triple) (acc : Rotation) :
  compound_rotation_loop acc l =
  fold_left (fun compound rotation => multiply (create_rotation rotation) compound) l acc.
Proof. revert acc. induction l as [|r l IH]; intros acc; simpl; auto. Qed.

(** Appending one triple pre-multiplies its rotation. *)
Lemma compound_rotation_loop_snoc (l : list Triple) (r : Triple) (acc : Rotation) :
  compound_rotation_loop acc (l ++ [r]) =
  multiply (create_rotation r) (compound_rotation_loop acc l).
Proof. revert acc. induction l as [|r' l IH]; intros acc; simpl; auto. Qed.

Lemma compound_rotation_loop_product (l : list Triple) (acc : Rotation) :
  compound_rotation_loop acc l =
  fold_right multiply acc (rev (map create_rotation l)).
Proof.
  revert acc. induction l as [|r l IH]; intros acc; simpl; auto.
  rewrite IH, fold_right_app. reflexivity.
Qed.

Lemma compound_rotation_loop_multVec (l : list Triple) (acc : Rotation) (v : Vector) :
  multVec (compound_rotation_loop acc l) v =
  fold_left (fun u rotation => multVec (create_rotation rotation) u) l (multVec acc v).
Proof.
  revert acc. induction l as [|r l IH]; intros acc; simpl; auto.
  rewrite IH, multVec_multiply. reflexivity.
Qed.

End CompoundRotation.

(** C1: for every list of triples [r1; ...; rn], [compound_rotation] is the
    left fold of [next.multiply(accumulated)] from the null rotation, which
    is the product R(rn) * ... * R(r1); applied to a vector, the rotation of
    r1 acts first, then that of r2, and so on in listed order. *)
Theorem compound_rotation_is_reversed_product (l : list Triple) :
  compound_rotation l =
    fold_left (fun compound rotation => multiply (create_rotation rotation) compound)
              l Rotation_null
  /\ compound_rotation l = fold_right multiply Rotation_null (rev (map create_rotation l))
  /\ forall v : Vector,
       multVec (compound_rotation l) v =
       fold_left (fun u rotation => multVec (create_rotation rotation) u) l v.
Proof.
  unfold compound_rotation. rewrite Rotation_axis_Z_0. repeat split.
  - apply compound_rotation_loop_fold.
  - apply compound_rotation_loop_product.
  - intro v. rewrite compound_rotation_loop_multVec, multVec_null. reflexivity.
Qed.

(** ** Running the helpers *)

Lemma modify_new (d rest : Doc) (o : Obj.t) (f : Obj.t -> Obj.t) :
  modify (List.length d) f (d ++ o :: rest) = d ++ f o :: rest.
Proof. induction d as [|o' d IH]; simpl; [reflexivity | now rewrite IH]. Qed.

Lemma length_snoc (d : Doc) (o : Obj.t) : List.length (d ++ [o]) = S (List.length d).
Proof. rewrite length_app. simpl. lia. Qed.

Lemma snoc_snoc (d : Doc) (a b : Obj.t) : (d ++ [a]) ++ [b] = d ++ [a; b].
Proof. now rewrite <- app_assoc. Qed.

Lemma retains_refl (d : Doc) : retains d d.
Proof. exists []. now rewrite app_nil_r. Qed.

Lemma retains_app (d added : Doc) : retains d (d ++ added).
Proof. now exists added. Qed.

Lemma retains_trans (a b c : Doc) : retains a b -> retains b c -> retains a c.
Proof. intros [x ->] [y ->]. exists (x ++ y). now rewrite app_assoc. Qed.

Lemma retains_nth_error (d d' : Doc) (h : handle) (o : Obj.t) :
  retains d d' -> nth_error d h = Some o -> nth_error d' h = Some o.
Proof.
  intros [added ->] Hh. rewrite nth_error_app1; auto.
  apply nth_error_Some. congruence.
Qed.

Lemma retains_incl (d d' : Doc) : retains d d' -> incl d d'.
Proof. intros [added ->]. apply incl_appl, incl_refl. Qed.

Lemma retains_length (d d' : Doc) : retains d d' -> (List.length d <= List.length d')%nat.
Proof. intros [added ->]. rewrite length_app. lia. Qed.

(** Unfolds a helper on a document and replays its assignments. *)
Ltac run_helper :=
  unfold bind, addObject, setattr, recompute, ret, raise; simpl;
  repeat (rewrite ?modify_new, ?length_snoc; simpl);
  repeat rewrite snoc_snoc.

Section Runs.

Context `{K : Kernel}.

Lemma create_cylinder_run (height radius : R) (position : Triple) (d : Doc) :
  create_cylinder height radius position d =
  (d ++ [Obj.mk Part_Cylinder "Cylinder" radius height 10 10
                (mkPlacement (Vector_of position)
                             (Rotation_axis_angle (mkVector 0 0 1) 0))
                None None [] None],
   inr (List.length d)).
Proof. unfold create_cylinder. run_helper. reflexivity. Qed.

Lemma cut_run (base_cylinder tool_cylinder : handle) (d : Doc) :
  let d' := d ++ [boolean_object Part_Cut "Cut" base_cylinder tool_cylinder] in
  cut base_cylinder tool_cylinder d =
  (d', if kernel_ok d' then inr (List.length d) else inl RecomputeError).
Proof.
  unfold cut. run_helper.
  unfold Obj.set_Tool, Obj.set_Base, Obj.fresh, boolean_object; simpl.
  now destruct (kernel_ok _).
Qed.

Lemma join_parts_run (part1 part2 : handle) (d : Doc) :
  let d' := d ++ [boolean_object Part_Fuse "FusedPart" part1 part2] in
  join_parts part1 part2 d =
  (d', if kernel_ok d' then inr (List.length d) else inl RecomputeError).
Proof.
  unfold join_parts. run_helper.
  unfold Obj.set_Tool, Obj.set_Base, Obj.fresh, boolean_object; simpl.
  now destruct (kernel_ok _).
Qed.

Lemma make_hole_run (part : handle) (hole_diameter hole_height : R)
      (hole_position : Triple) (hole_rotation : RotationArg)
      (through_hole : bool) (d : Doc) :
  let d' := d ++ [hole_tool hole_diameter hole_height hole_position
                            hole_rotation through_hole;
                  boolean_object Part_Cut "Cut" part (List.length d)] in
  make_hole part hole_diameter hole_height hole_position hole_rotation
            through_hole d =
  (d', if kernel_ok d' then inr (S (List.length d)) else inl RecomputeError).
Proof.
  unfold make_hole. destruct through_hole; run_helper;
    unfold hole_tool, boolean_object, shift_back, Obj.set_Placement_Base,
      Obj.set_Placement_Rotation, Obj.set_Placement, Obj.set_Tool, Obj.set_Base,
      Obj.set_Height, Obj.set_Radius, Obj.fresh; simpl;
    now destruct (kernel_ok _).
Qed.

End Runs.

(** ** The tool of [make_hole] *)

Section MakeHole.

Context `{K : Kernel}.

Lemma make_hole_tool (part : handle) (hole_diameter hole_height : R)
      (hole_position : Triple) (hole_rotation : RotationArg)
      (through_hole : bool) (d : Doc) :
  nth_error
    (fst (make_hole part hole_diameter hole_height hole_position hole_rotation
                    through_hole d))
    (List.length d)
  = Some (hole_tool hole_diameter hole_height hole_position hole_rotation
                    through_hole).
Proof.
  rewrite make_hole_run. cbn [fst].
  rewrite nth_error_app2 by lia. rewrite Nat.sub_diag. reflexivity.
Qed.

Lemma make_hole_cut (part : handle) (hole_diameter hole_height : R)
      (hole_position : Triple) (hole_rotation : RotationArg)
      (through_hole : bool) (d : Doc) :
  nth_error
    (fst (make_hole part hole_diameter hole_height hole_position hole_rotation
                    through_hole d))
    (S (List.length d))
  = Some (boolean_object Part_Cut "Cut" part (List.length d)).
Proof.
  rewrite make_hole_run. cbn [fst].
  rewrite nth_error_app2 by lia.
  replace (S (List.length d) - List.length d)%nat with 1%nat by lia.
  reflexivity.
Qed.

End MakeHole.

(** A list of two triples that turns the local Z axis of the tool onto the
    world Y axis. *)
Lemma compound_rotation_pitch_yaw_90 (v : Vector) :
  multVec (compound_rotation [(0, 90, 0); (90, 0, 0)]) v =
  mkVector (- vy v) (vz v) (- vx v).
Proof.
  unfold compound_rotation; simpl.
  rewrite Rotation_axis_Z_0, multiply_null_r, !multVec_multiply.
  rewrite Rotation_ypr_yaw, Rotation_ypr_pitch, radians_90.
  unfold rot_z, rot_y, multVec; simpl.
  rewrite cos_PI2, sin_PI2. f_equal; ring.
Qed.

(** C3: with [through_hole=True] the cylinder that [make_hole] leaves in the
    document as the tool of the cut has the hole's rotation R and the origin
    p - R(0,0,h/2): the half-height shift is carried by R, for a single
    tuple as for a list.  For the list [(0,90,0); (90,0,0)] the origin is
    p - (0,h/2,0): it moves back along the world Y axis and keeps the Z
    coordinate of p. *)
Theorem make_hole_through_hole_origin `{K : Kernel}
        (part : handle) (hole_diameter hole_height : R)
        (hole_position : Triple) (hole_rotation : RotationArg) (d : Doc) :
  (exists tool : Obj.t,
      nth_error
        (fst (make_hole part hole_diameter hole_height hole_position hole_rotation
                        true d))
        (List.length d) = Some tool
      /\ nth_error
           (fst (make_hole part hole_diameter hole_height hole_position
                           hole_rotation true d))
           (S (List.length d))
         = Some (boolean_object Part_Cut "Cut" part (List.length d))
      /\ Obj.TypeId tool = Part_Cylinder
      /\ Rotation_ (Obj.Placement tool) = hole_rotation_of hole_rotation
      /\ Base (Obj.Placement tool) =
         vsub (Vector_of hole_position)
              (multVec (hole_rotation_of hole_rotation)
                       (mkVector 0 0 (hole_height / 2))))
  /\ (exists tool : Obj.t,
         nth_error
           (fst (make_hole part hole_diameter hole_height hole_position
                           (ListOf [(0, 90, 0); (90, 0, 0)]) true d))
           (List.length d) = Some tool
         /\ Base (Obj.Placement tool)
            = vsub (Vector_of hole_position) (mkVector 0 (hole_height / 2) 0)
         /\ vz (Base (Obj.Placement tool)) = vz (Vector_of hole_position)).
Proof.
  split.
  - exists (hole_tool hole_diameter hole_height hole_position hole_rotation true).
    repeat split.
    + apply make_hole_tool.
    + apply make_hole_cut.
  - exists (hole_tool hole_diameter hole_height hole_position
                      (ListOf [(0, 90, 0); (90, 0, 0)]) true).
    split; [apply make_hole_tool|].
    unfold hole_tool; simpl Base.
    unfold hole_rotation_of. rewrite compound_rotation_pitch_yaw_90; simpl.
    split; [f_equal; f_equal; ring | ring].
Qed.

(** ** One triple, as a tuple or as a list *)

(** C10: [compound_rotation] of the empty list is the null rotation, of a
    one-element list [t] it is [create_rotation t]; so [make_hole] gives
    the same objects and the same result for the tuple [t] and for the list
    [t], although line 53 takes a different branch. *)
Theorem compound_rotation_nil_and_singleton `{K : Kernel} :
  compound_rotation [] = Rotation_null
  /\ (forall t : Triple, compound_rotation [t] = create_rotation t)
  /\ (forall (t : Triple) (part : handle) (hole_diameter hole_height : R)
             (hole_position : Triple) (through_hole : bool) (d : Doc),
         hole_rotation_of (ListOf [t]) = hole_rotation_of (Tuple t)
         /\ make_hole part hole_diameter hole_height hole_position (ListOf [t])
                      through_hole d
            = make_hole part hole_diameter hole_height hole_position (Tuple t)
                        through_hole d).
Proof.
  assert (Hone : forall t : Triple, compound_rotation [t] = create_rotation t).
  { intro t. unfold compound_rotation; simpl.
    now rewrite Rotation_axis_Z_0, multiply_null_r. }
  repeat split.
  - unfold compound_rotation; simpl. apply Rotation_axis_Z_0.
  - exact Hone.
  - simpl. apply Hone.
  - unfold make_hole. simpl hole_rotation_of. now rewrite Hone.
Qed.

(** ** The composition order on [(0,90,0); (angle,0,0)] *)

Lemma compound_rotation_pitch_then_yaw (angle : R) :
  compound_rotation [(0, 90, 0); (angle, 0, 0)] =
  multiply (rot_z (radians angle)) (rot_y (radians 90)).
Proof.
  unfold compound_rotation; simpl.
  now rewrite Rotation_axis_Z_0, multiply_null_r, Rotation_ypr_yaw, Rotation_ypr_pitch.
Qed.

Lemma sqrt2_pos : 0 < / sqrt 2.
Proof. apply Rinv_0_lt_compat, sqrt_lt_R0. lra. Qed.

(** C2, as the spec words it, tried at angle 45 on the vector (0,1,0): the
    composed rotation sends it to (-1/sqrt 2, 1/sqrt 2, 0); a rotation about
    X followed by the quarter turn about Y sends it to
    (1/sqrt 2, 1/sqrt 2, 0), and the same two in the other order to
    (0, 1/sqrt 2, 1/sqrt 2). *)
Lemma compound_rotation_not_x_then_y :
  multVec (compound_rotation [(0, 90, 0); (45, 0, 0)]) (mkVector 0 1 0)
  <> multVec (rot_y (radians 90))
             (multVec (rot_x (radians 45)) (mkVector 0 1 0))
  /\ multVec (compound_rotation [(0, 90, 0); (45, 0, 0)]) (mkVector 0 1 0)
     <> multVec (rot_x (radians 45))
                (multVec (rot_y (radians 90)) (mkVector 0 1 0)).
Proof.
  rewrite compound_rotation_pitch_then_yaw, multVec_multiply.
  rewrite radians_90, radians_45.
  unfold rot_x, rot_y, rot_z, multVec; simpl.
  rewrite cos_PI2, sin_PI2, cos_PI4, sin_PI4.
  pose proof sqrt2_pos.
  split; intro Heq; apply (f_equal vx) in Heq; simpl in Heq; lra.
Qed.

(** Rotations about X and about Y do not commute either, so the order of
    the two factors matters whatever axis the second triple turns about. *)
Remark rot_x_rot_y_do_not_commute :
  multVec (multiply (rot_x (radians 45)) (rot_y (radians 90))) (mkVector 1 0 0)
  <> multVec (multiply (rot_y (radians 90)) (rot_x (radians 45))) (mkVector 1 0 0).
Proof.
  rewrite !multVec_multiply, radians_90, radians_45.
  unfold rot_x, rot_y, multVec; simpl.
  rewrite cos_PI2, sin_PI2, cos_PI4, sin_PI4.
  intro Heq. apply (f_equal vy) in Heq. simpl in Heq.
  pose proof sqrt2_pos. lra.
Qed.

(** C2 (amended): for the list [(0,90,0); (angle,0,0)] the composed rotation
    is R(angle,0,0) * R(0,90,0): on a vector the first triple acts first, a
    quarter turn about Y, and then the second one, which the host reads as a
    yaw of [angle] degrees about Z.  At angle 45 the rotation is the matrix
    written out below. *)
Theorem compound_rotation_pitch_90_then_yaw (angle : R) (v : Vector) :
  multVec (compound_rotation [(0, 90, 0); (angle, 0, 0)]) v
  = multVec (create_rotation (angle, 0, 0)) (multVec (create_rotation (0, 90, 0)) v)
  /\ multVec (compound_rotation [(0, 90, 0); (angle, 0, 0)]) v
     = multVec (rot_z (radians angle)) (multVec (rot_y (radians 90)) v)
  /\ compound_rotation [(0, 90, 0); (45, 0, 0)]
     = mkRotation 0    (- / sqrt 2) (/ sqrt 2)
                  0    (/ sqrt 2)   (/ sqrt 2)
                  (-1) 0            0.
Proof.
  repeat split.
  - rewrite compound_rotation_pitch_then_yaw, multVec_multiply.
    unfold create_rotation. now rewrite Rotation_ypr_yaw, Rotation_ypr_pitch.
  - now rewrite compound_rotation_pitch_then_yaw, multVec_multiply.
  - rewrite compound_rotation_pitch_then_yaw, radians_90, radians_45.
    unfold rot_z, rot_y, multiply; simpl.
    rewrite cos_PI2, sin_PI2, cos_PI4, sin_PI4.
    f_equal; field; apply Rgt_not_eq, sqrt_lt_R0; lra.
Qed.

(** ** The centred box *)

Ltac run_rectangle :=
  run_helper;
  unfold centered_box, compound_of, Obj.set_Placement, Obj.set_Links,
    Obj.set_Height, Obj.set_Width, Obj.set_Length, Obj.fresh; simpl;
  now destruct (kernel_ok _).

Section CenteredRectangle.

Context `{K : Kernel}.

(** The current text: the box is offset by (-length/2, -width/2, 0). *)
Lemma create_centered_rectangle_run (length width height : R) (label : string)
      (d : Doc) :
  let d' := d ++ [centered_box length width height
                               (mkVector (- length / 2) (- width / 2) 0);
                  compound_of label [List.length d]] in
  create_centered_rectangle length width height label d =
  (d', if kernel_ok d' then inr (S (List.length d)) else inl RecomputeError).
Proof. unfold create_centered_rectangle. run_rectangle. Qed.

(** The first text: the two halves are exchanged. *)
Lemma create_centered_rectangle_v1_run (length width height : R) (label : string)
      (d : Doc) :
  let d' := d ++ [centered_box length width height
                               (mkVector (- width / 2) (- length / 2) 0);
                  compound_of label [List.length d]] in
  create_base_v1.create_centered_rectangle length width height label d =
  (d', if kernel_ok d' then inr (S (List.length d)) else inl RecomputeError).
Proof. unfold create_base_v1.create_centered_rectangle. run_rectangle. Qed.

Lemma create_centered_rectangle_part_000_run (length width height : R)
      (label : string) (d : Doc) :
  let d' := d ++ [centered_box length width height
                               (mkVector (- width / 2) (- length / 2) 0);
                  compound_of label [List.length d]] in
  part_000.create_centered_rectangle length width height label d =
  (d', if kernel_ok d' then inr (S (List.length d)) else inl RecomputeError).
Proof. unfold part_000.create_centered_rectangle. run_rectangle. Qed.

(** Where the current text is used, the box of every call is centred in
    X and Y and stands on Z = 0: its local extent [0,L] x [0,W] x [0,H]
    is moved to [-L/2,L/2] x [-W/2,W/2] x [0,H]. *)
Lemma create_centered_rectangle_centered (length width height : R)
      (label : string) (d : Doc) :
  exists box : Obj.t,
    nth_error (fst (create_centered_rectangle length width height label d))
              (List.length d) = Some box
    /\ Obj.Length box = length /\ Obj.Width box = width
    /\ Obj.Height box = height
    /\ Base (Obj.Placement box) = mkVector (- length / 2) (- width / 2) 0
    /\ vadd (Base (Obj.Placement box)) (mkVector length width height)
       = mkVector (length / 2) (width / 2) height.
Proof.
  rewrite create_centered_rectangle_run. cbn [fst].
  rewrite nth_error_app2 by lia. rewrite Nat.sub_diag. simpl.
  eexists. split; [reflexivity|]. simpl. repeat split.
  unfold vadd; simpl. f_equal; field.
Qed.

(** The one call in [unnamed/part_000] passes equal length and width, so
    the exchange does not show there. *)
Lemma part_000_call_site_centered (label : string) (d : Doc) :
  nth_error (fst (part_000.main_rectangle label d)) (List.length d)
  = Some (centered_box part_000.inner_barrier_length
                       part_000.inner_barrier_width
                       part_000.inner_barrier_height
                       (mkVector (- part_000.inner_barrier_length / 2)
                                 (- part_000.inner_barrier_width / 2) 0)).
Proof.
  unfold part_000.main_rectangle.
  rewrite create_centered_rectangle_part_000_run. cbn [fst].
  rewrite nth_error_app2 by lia. rewrite Nat.sub_diag. reflexivity.
Qed.

End CenteredRectangle.

(** C4: at every call site of the centred-rectangle helper the box made
    for length L, width W and height H is placed with the offset
    (-L/2, -W/2, 0), so that it spans [-L/2, L/2] in X and [-W/2, W/2] in
    Y and stands on Z = 0.  Every script but [unnamed/part_000] calls the
    current text, which places the box so for all arguments; the one call
    of the older text, line 164 of [unnamed/part_000], passes length 10 and
    width 10, for which the exchanged halves of that text give the same
    offset; [create_base_v1.py] defines the older text and never calls
    it. *)
Theorem create_centered_rectangle_call_sites_centered `{K : Kernel} :
  (forall (length width height : R) (label : string) (d : Doc),
      exists box : Obj.t,
        nth_error (fst (create_centered_rectangle length width height label d))
                  (List.length d) = Some box
        /\ Obj.TypeId box = Part_Box
        /\ Obj.Length box = length /\ Obj.Width box = width
        /\ Obj.Height box = height
        /\ Obj.Placement box
           = mkPlacement (mkVector (- length / 2) (- width / 2) 0) Rotation_null
        /\ vadd (Base (Obj.Placement box)) (mkVector length width height)
           = mkVector (length / 2) (width / 2) height)
  /\ (forall (label : string) (d : Doc),
         exists box : Obj.t,
           nth_error (fst (part_000.main_rectangle label d)) (List.length d)
           = Some box
           /\ Obj.TypeId box = Part_Box
           /\ Obj.Length box = part_000.inner_barrier_length
           /\ Obj.Width box = part_000.inner_barrier_width
           /\ Obj.Height box = part_000.inner_barrier_height
           /\ Obj.Placement box
              = mkPlacement (mkVector (- part_000.inner_barrier_length / 2)
                                      (- part_000.inner_barrier_width / 2) 0)
                            Rotation_null
           /\ vadd (Base (Obj.Placement box))
                   (mkVector part_000.inner_barrier_length
                             part_000.inner_barrier_width
                             part_000.inner_barrier_height)
              = mkVector (part_000.inner_barrier_length / 2)
                         (part_000.inner_barrier_width / 2)
                         part_000.inner_barrier_height).
Proof.
  split.
  - intros length width height label d.
    rewrite create_centered_rectangle_run. cbn [fst].
    rewrite nth_error_app2 by lia. rewrite Nat.sub_diag. cbn [nth_error].
    eexists. split; [reflexivity|].
    unfold centered_box; cbn. repeat split.
    unfold vadd; cbn. f_equal; field.
  - intros label d. unfold part_000.main_rectangle.
    rewrite create_centered_rectangle_part_000_run. cbn [fst].
    rewrite nth_error_app2 by lia. rewrite Nat.sub_diag. cbn [nth_error].
    eexists. split; [reflexivity|].
    unfold centered_box; cbn. repeat split.
    unfold vadd, part_000.inner_barrier_length, part_000.inner_barrier_width,
      part_000.inner_barrier_height; cbn. f_equal; field.
Qed.

(** ** The hollow cylinder *)

Lemma create_hollow_cylinder_raise (outer_radius inner_radius height : R)
      (position : Triple) (d : Doc) :
  inner_radius >= outer_radius ->
  create_hollow_cylinder outer_radius inner_radius height position d
  = (d, inl (ValueError "Inner radius must be smaller than outer radius")).
Proof.
  intro Hge. unfold create_hollow_cylinder.
  destruct (Rge_dec inner_radius outer_radius); [reflexivity | contradiction].
Qed.

Lemma create_hollow_cylinder_run (outer_radius inner_radius height : R)
      (position : Triple) (d : Doc) :
  inner_radius < outer_radius ->
  create_hollow_cylinder outer_radius inner_radius height position d
  = (d ++ [hollow_cylinder_part outer_radius inner_radius height position],
     inr (List.length d)).
Proof.
  intro Hlt. unfold create_hollow_cylinder.
  destruct (Rge_dec inner_radius outer_radius); [lra|].
  run_helper. reflexivity.
Qed.

(** C6: [create_hollow_cylinder] raises its invalid-parameter error exactly
    when the inner radius is not smaller than the outer one; when it is
    smaller, nothing is raised and the call adds and returns one object
    whose shape is the outer cylinder cut by the inner one. *)
Theorem create_hollow_cylinder_raises_iff
        (outer_radius inner_radius height : R) (position : Triple) (d : Doc) :
  ((exists e : Exn,
       snd (create_hollow_cylinder outer_radius inner_radius height position d)
       = inl e)
   <-> inner_radius >= outer_radius)
  /\ (inner_radius >= outer_radius ->
      create_hollow_cylinder outer_radius inner_radius height position d
      = (d, inl (ValueError "Inner radius must be smaller than outer radius")))
  /\ (inner_radius < outer_radius ->
      create_hollow_cylinder outer_radius inner_radius height position d
      = (d ++ [hollow_cylinder_part outer_radius inner_radius height position],
         inr (List.length d))).
Proof.
  split; [split|split].
  - intros [e He]. destruct (Rge_dec inner_radius outer_radius) as [Hge|Hn]; auto.
    rewrite create_hollow_cylinder_run in He by lra. discriminate.
  - intro Hge. rewrite create_hollow_cylinder_raise by assumption. now eexists.
  - apply create_hollow_cylinder_raise.
  - apply create_hollow_cylinder_run.
Qed.

Lemma create_hollow_cylinder_raises_iff_witness :
  1 < 2
  /\ create_hollow_cylinder 2 1 5 (0, 0, 0) []
     = ([hollow_cylinder_part 2 1 5 (0, 0, 0)], inr 0%nat).
Proof.
  assert (Hlt : 1 < 2) by lra.
  split; [exact Hlt|].
  exact (proj2 (proj2 (create_hollow_cylinder_raises_iff 2 1 5 (0, 0, 0) [])) Hlt).
Defined.

(** ** Helper calls never remove objects *)

Section OnlyAdds.

Context `{K : Kernel}.

Lemma only_adds_intro (c : M handle) :
  (forall d : Doc,
      exists added : Doc,
        fst (c d) = d ++ added
        /\ match snd (c d) with
           | inr h => (List.length d <= h < List.length d + List.length added)%nat
           | inl _ => True
           end) ->
  only_adds c.
Proof.
  intros Hc d. destruct (Hc d) as [added [Heq Hh]]. rewrite Heq.
  split; [apply retains_app|].
  split; [apply incl_appl, incl_refl|].
  split.
  - rewrite firstn_app, firstn_all, Nat.sub_diag. simpl. apply app_nil_r.
  - destruct (snd (c d)); [exact I|]. now rewrite length_app.
Qed.

Lemma cut_only_adds (base_cylinder tool_cylinder : handle) :
  only_adds (cut base_cylinder tool_cylinder).
Proof.
  apply only_adds_intro. intro d. rewrite cut_run. cbn [fst snd].
  eexists. split; [reflexivity|].
  destruct (kernel_ok _); [simpl; lia | exact I].
Qed.

Lemma join_parts_only_adds (part1 part2 : handle) :
  only_adds (join_parts part1 part2).
Proof.
  apply only_adds_intro. intro d. rewrite join_parts_run. cbn [fst snd].
  eexists. split; [reflexivity|].
  destruct (kernel_ok _); [simpl; lia | exact I].
Qed.

Lemma make_hole_only_adds (part : handle) (hole_diameter hole_height : R)
      (hole_position : Triple) (hole_rotation : RotationArg)
      (through_hole : bool) :
  only_adds (make_hole part hole_diameter hole_height hole_position
                       hole_rotation through_hole).
Proof.
  apply only_adds_intro. intro d. rewrite make_hole_run. cbn [fst snd].
  eexists. split; [reflexivity|].
  destruct (kernel_ok _); [simpl; lia | exact I].
Qed.

Lemma exec_retains (c : Call) (d : Doc) : retains d (fst (exec c d)).
Proof.
  destruct c; cbn [exec].
  - rewrite create_cylinder_run. apply retains_app.
  - apply cut_only_adds.
  - apply make_hole_only_adds.
  - apply join_parts_only_adds.
  - rewrite create_centered_rectangle_run. apply retains_app.
  - destruct (Rge_dec inner_radius outer_radius) as [Hge|Hn].
    + rewrite create_hollow_cylinder_raise by assumption. apply retains_refl.
    + rewrite create_hollow_cylinder_run by lra. apply retains_app.
Qed.

(** What a raising helper call leaves: a refused recomputation leaves the
    very document the kernel refused, the parameter check leaves the
    document as it was. *)
Lemma exec_raises (c : Call) (d d' : Doc) (e : Exn) :
  exec c d = (d', inl e) ->
  match e with
  | RecomputeError => kernel_ok d' = false
  | ValueError _ => d' = d
  end.
Proof.
  destruct c; cbn [exec].
  - rewrite create_cylinder_run. discriminate.
  - rewrite cut_run. cbv zeta. destruct (kernel_ok _) eqn:Hk; [discriminate|].
    intros [= <- <-]. exact Hk.
  - rewrite make_hole_run. cbv zeta. destruct (kernel_ok _) eqn:Hk; [discriminate|].
    intros [= <- <-]. exact Hk.
  - rewrite join_parts_run. cbv zeta. destruct (kernel_ok _) eqn:Hk; [discriminate|].
    intros [= <- <-]. exact Hk.
  - rewrite create_centered_rectangle_run. cbv zeta.
    destruct (kernel_ok _) eqn:Hk; [discriminate|].
    intros [= <- <-]. exact Hk.
  - destruct (Rge_dec inner_radius outer_radius) as [Hge|Hn].
    + rewrite create_hollow_cylinder_raise by assumption.
      intros [= <- <-]. reflexivity.
    + rewrite create_hollow_cylinder_run by lra. discriminate.
Qed.

End OnlyAdds.

(** C8: [cut], [make_hole] and [join_parts] only add objects: every object
    of the document before the call is in the document after it, unchanged
    and under its handle, whether the call returns or raises; the handle a
    call returns is that of an object it added, which the caller takes as
    its new working reference.  The primitive factories keep every earlier
    object as well. *)
Theorem boolean_helpers_only_add `{K : Kernel} :
  (forall base_cylinder tool_cylinder : handle,
      only_adds (cut base_cylinder tool_cylinder))
  /\ (forall (part : handle) (hole_diameter hole_height : R)
             (hole_position : Triple) (hole_rotation : RotationArg)
             (through_hole : bool),
         only_adds (make_hole part hole_diameter hole_height hole_position
                              hole_rotation through_hole))
  /\ (forall part1 part2 : handle, only_adds (join_parts part1 part2))
  /\ (forall (c : Call) (d : Doc), retains d (fst (exec c d))).
Proof.
  split; [|split; [|split]].
  - apply cut_only_adds.
  - apply make_hole_only_adds.
  - apply join_parts_only_adds.
  - apply exec_retains.
Qed.

(** ** A raising call ends the script *)

Lemma bind_raises {A B : Type} (c : M A) (k : A -> M B) (d d' : Doc) (e : Exn) :
  c d = (d', inl e) -> bind c k d = (d', inl e).
Proof. intro Hc. unfold bind. now rewrite Hc. Qed.

Lemma bind_returns {A B : Type} (c : M A) (k : A -> M B) (d d' : Doc) (a : A) :
  c d = (d', inr a) -> bind c k d = k a d'.
Proof. intro Hc. unfold bind. now rewrite Hc. Qed.

(** C9: when a helper call of a script raises, the script ends with that
    exception: nothing of the rest of the script runs, whatever it is, and
    the document is the one the raising call left.  That document has every
    object that was there before the call; it is the document whose
    recomputation was refused, or the unchanged one when the parameter
    check raised.  No helper retries, undoes or handles anything. *)
Theorem raising_call_ends_script `{K : Kernel} {A B : Type}
        (before : M A) (call : A -> Call) (rest : A -> handle -> M B)
        (d0 d1 d2 : Doc) (a : A) (e : Exn) :
  before d0 = (d1, inr a) ->
  exec (call a) d1 = (d2, inl e) ->
  (a <- before ;; h <- exec (call a) ;; rest a h) d0 = (d2, inl e)
  /\ retains d1 d2
  /\ match e with
     | RecomputeError => kernel_ok d2 = false
     | ValueError _ => d2 = d1
     end.
Proof.
  intros Hbefore Hcall. repeat split.
  - rewrite (bind_returns _ _ _ _ _ Hbefore). now apply bind_raises.
  - change d2 with (fst (d2, @inl Exn handle e)). rewrite <- Hcall.
    apply exec_retains.
  - now apply exec_raises in Hcall.
Qed.

Lemma raising_call_ends_script_witness :
  (a <- create_cylinder 5 95 (0, 0, 0) ;;
   h <- exec (K := small_kernel)
             (Call_make_hole a 6 1000 (85, 0, 0) (Tuple (0, 0, 0)) true) ;;
   join_parts (K := small_kernel) a h) []
  = (base_plate
       ++ [hole_tool 6 1000 (85, 0, 0) (Tuple (0, 0, 0)) true;
           boolean_object Part_Cut "Cut" 0%nat 1%nat],
     inl RecomputeError)
  /\ retains base_plate
             (base_plate
                ++ [hole_tool 6 1000 (85, 0, 0) (Tuple (0, 0, 0)) true;
                    boolean_object Part_Cut "Cut" 0%nat 1%nat])
  /\ kernel_ok (Kernel := small_kernel)
               (base_plate
                  ++ [hole_tool 6 1000 (85, 0, 0) (Tuple (0, 0, 0)) true;
                      boolean_object Part_Cut "Cut" 0%nat 1%nat])
     = false.
Proof.
  apply (raising_call_ends_script (K := small_kernel)
           (create_cylinder 5 95 (0, 0, 0))
           (fun a => Call_make_hole a 6 1000 (85, 0, 0) (Tuple (0, 0, 0)) true)
           (fun a h => join_parts (K := small_kernel) a h)
           [] base_plate _ 0%nat RecomputeError).
  - reflexivity.
  - cbn [exec]. rewrite make_hole_run. reflexivity.
Defined.

(** ** The radial hole loop *)

Module create_base_v2_facts.
Import create_base_v2.

Lemma angle_closed_form (i : nat) : angle i = 22.5 + 45 * INR i.
Proof.
  unfold angle, number_of_holes.
  replace (INR 8) with 8 by (simpl; lra).
  lra.
Qed.

Lemma angle_in_turn (i : nat) : (i < number_of_holes)%nat -> 0 <= angle i < 360.
Proof.
  intro Hi. rewrite angle_closed_form.
  pose proof (pos_INR i) as H0.
  unfold number_of_holes in Hi.
  assert (H7 : INR i <= INR 7) by (apply le_INR; lia).
  replace (INR 7) with 7 in H7 by (simpl; lra).
  lra.
Qed.

Lemma tool_origin (distance : R) (i : nat) :
  Base (Obj.Placement
          (hole_tool (m5_size * 2) HOLE_INF (x distance i, y distance i, 0)
                     (Tuple (0, 0, 0)) true))
  = mkVector (distance * cos (radians (22.5 + 45 * INR i)))
             (distance * sin (radians (22.5 + 45 * INR i)))
             (- (HOLE_INF / 2)).
Proof.
  unfold hole_tool; simpl. unfold x, y.
  rewrite Rotation_ypr_0, multVec_null, angle_closed_form.
  unfold vsub; simpl. f_equal; ring.
Qed.

Section Loop.

Context `{K : Kernel}.

Lemma holes_body_run (base_cylinder : handle) (i : nat) (d : Doc) :
  let d1 := d ++ [first_tool i;
                  boolean_object Part_Cut "Cut" base_cylinder (List.length d)] in
  let d2 := d1 ++ [second_tool i;
                   boolean_object Part_Cut "Cut" (S (List.length d))
                                  (List.length d1)] in
  holes_body base_cylinder i d =
  if kernel_ok d1
  then (d2, if kernel_ok d2 then inr (S (List.length d1)) else inl RecomputeError)
  else (d1, inl RecomputeError).
Proof.
  intros d1 d2. unfold holes_body, bind.
  rewrite make_hole_run. cbv zeta. fold (first_tool i). fold d1.
  destruct (kernel_ok d1); [|reflexivity].
  rewrite make_hole_run. cbv zeta. fold (second_tool i). fold d2.
  destruct (kernel_ok d2); reflexivity.
Qed.

Lemma for_each_holes (k s : nat) (base_cylinder h : handle) (d d' : Doc) :
  for_each (seq s k) holes_body base_cylinder d = (d', inr h) ->
  retains d d'
  /\ forall j : nat, (j < k)%nat ->
       nth_error d' (List.length d + 4 * j) = Some (first_tool (s + j))
       /\ nth_error d' (List.length d + 4 * j + 2) = Some (second_tool (s + j)).
Proof.
  revert s base_cylinder d. induction k as [|k IH]; intros s base_cylinder d Hrun.
  - simpl in Hrun. injection Hrun as <- _. split; [apply retains_refl|].
    intros j Hj. lia.
  - cbn [seq for_each] in Hrun. unfold bind in Hrun.
    rewrite holes_body_run in Hrun. cbv zeta in Hrun.
    set (d1 := d ++ [first_tool s;
                     boolean_object Part_Cut "Cut" base_cylinder (List.length d)])
      in *.
    set (d2 := d1 ++ [second_tool s;
                      boolean_object Part_Cut "Cut" (S (List.length d))
                                     (List.length d1)]) in *.
    destruct (kernel_ok d1); [|discriminate].
    destruct (kernel_ok d2); [|discriminate].
    apply IH in Hrun. destruct Hrun as [Hret Hnth].
    assert (Hd2 : d2 = d ++ [first_tool s;
                             boolean_object Part_Cut "Cut" base_cylinder
                                            (List.length d);
                             second_tool s;
                             boolean_object Part_Cut "Cut" (S (List.length d))
                                            (List.length d1)]).
    { unfold d2, d1. now rewrite <- app_assoc. }
    assert (Hlen : List.length d2 = (List.length d + 4)%nat).
    { rewrite Hd2, length_app. reflexivity. }
    split.
    + apply retains_trans with d2; [|exact Hret].
      rewrite Hd2. apply retains_app.
    + intros [|j] Hj.
      * rewrite Nat.mul_0_r, !Nat.add_0_r. split.
        -- apply (retains_nth_error d2 d'); [exact Hret|].
           rewrite Hd2, nth_error_app2 by lia. rewrite Nat.sub_diag. reflexivity.
        -- apply (retains_nth_error d2 d'); [exact Hret|].
           rewrite Hd2, nth_error_app2 by lia.
           replace (List.length d + 2 - List.length d)%nat with 2%nat by lia.
           reflexivity.
      * destruct (Hnth j ltac:(lia)) as [H1 H2].
        rewrite Hlen in H1, H2.
        replace (List.length d + 4 * S j)%nat
          with (List.length d + 4 + 4 * j)%nat by lia.
        replace (s + S j)%nat with (S s + j)%nat by lia.
        split; assumption.
Qed.

Lemma main_holes_tools (d d' : Doc) (h : handle) (i : nat) :
  main_holes d = (d', inr h) -> (i < number_of_holes)%nat ->
  nth_error d' (List.length d + 1 + 4 * i) = Some (first_tool i)
  /\ nth_error d' (List.length d + 1 + 4 * i + 2) = Some (second_tool i).
Proof.
  unfold main_holes, bind. rewrite create_cylinder_run.
  intros Hrun Hi. apply for_each_holes in Hrun.
  destruct Hrun as [_ Hnth]. specialize (Hnth i Hi).
  rewrite length_snoc in Hnth.
  replace (List.length d + 1)%nat with (S (List.length d)) by lia.
  exact Hnth.
Qed.

End Loop.

End create_base_v2_facts.

(** C5: in the loop over N = 8 holes with phase 360/N/2 of
    [create_base_v2.py], the angle of feature i is 22.5 + 45 i degrees, which
    for i = 0..7 lies in [0, 360); the position at a distance R from the
    centre is (R cos, R sin) of that angle; and when the loop has run, the
    two tools of feature i stand in the document at these positions for
    R = 85 and R = 70, shifted back by half their height along Z. *)
Theorem radial_holes_angles_and_positions `{K : Kernel}
        (d d' : Doc) (h : handle) (i : nat) :
  create_base_v2.main_holes d = (d', inr h) ->
  (i < create_base_v2.number_of_holes)%nat ->
  create_base_v2.angle i = 22.5 + 45 * INR i
  /\ 0 <= create_base_v2.angle i < 360
  /\ (forall distance : R,
         create_base_v2.x distance i = distance * cos (radians (22.5 + 45 * INR i))
         /\ create_base_v2.y distance i
            = distance * sin (radians (22.5 + 45 * INR i)))
  /\ (exists tool : Obj.t,
         nth_error d' (List.length d + 1 + 4 * i) = Some tool
         /\ Base (Obj.Placement tool)
            = mkVector (85 * cos (radians (22.5 + 45 * INR i)))
                       (85 * sin (radians (22.5 + 45 * INR i)))
                       (- 500))
  /\ (exists tool : Obj.t,
         nth_error d' (List.length d + 1 + 4 * i + 2) = Some tool
         /\ Base (Obj.Placement tool)
            = mkVector (70 * cos (radians (22.5 + 45 * INR i)))
                       (70 * sin (radians (22.5 + 45 * INR i)))
                       (- 500)).
Proof.
  intros Hrun Hi.
  destruct (create_base_v2_facts.main_holes_tools d d' h i Hrun Hi) as [H1 H2].
  split; [apply create_base_v2_facts.angle_closed_form|].
  split; [now apply create_base_v2_facts.angle_in_turn|].
  split.
  - intro distance. unfold create_base_v2.x, create_base_v2.y.
    rewrite create_base_v2_facts.angle_closed_form. split; ring.
  - split.
    + exists (create_base_v2.first_tool i). split; [exact H1|].
      unfold create_base_v2.first_tool.
      rewrite create_base_v2_facts.tool_origin.
      unfold create_base_v2.first_hole_distance_from_center,
        create_base_v2.base_cylinder_radius, create_base_v2.HOLE_INF.
      f_equal; field.
    + exists (create_base_v2.second_tool i). split; [exact H2|].
      unfold create_base_v2.second_tool.
      rewrite create_base_v2_facts.tool_origin.
      unfold create_base_v2.second_hole_distance_from_center,
        create_base_v2.base_cylinder_radius, create_base_v2.HOLE_INF.
      f_equal; field.
Qed.

Lemma radial_holes_angles_and_positions_witness :
  create_base_v2.angle 3 = 22.5 + 45 * INR 3
  /\ 0 <= create_base_v2.angle 3 < 360
  /\ (forall distance : R,
         create_base_v2.x distance 3 = distance * cos (radians (22.5 + 45 * INR 3))
         /\ create_base_v2.y distance 3
            = distance * sin (radians (22.5 + 45 * INR 3)))
  /\ (exists tool : Obj.t,
         nth_error drilled_base 13 = Some tool
         /\ Base (Obj.Placement tool)
            = mkVector (85 * cos (radians (22.5 + 45 * INR 3)))
                       (85 * sin (radians (22.5 + 45 * INR 3)))
                       (- 500))
  /\ (exists tool : Obj.t,
         nth_error drilled_base 15 = Some tool
         /\ Base (Obj.Placement tool)
            = mkVector (70 * cos (radians (22.5 + 45 * INR 3)))
                       (70 * sin (radians (22.5 + 45 * INR 3)))
                       (- 500)).
Proof.
  apply (radial_holes_angles_and_positions (K := accepting_kernel)
           [] drilled_base 32%nat 3%nat).
  - reflexivity.
  - unfold create_base_v2.number_of_holes. lia.
Defined.

(** ** A hole outside the target *)

Lemma solids_from_app (earlier : list PointSet) (a b : Doc) :
  solids_from earlier (a ++ b) = solids_from (solids_from earlier a) b.
Proof.
  revert earlier. induction a as [|o a IH]; intro earlier; simpl; auto.
Qed.

Lemma solids_from_extends (earlier : list PointSet) (d : Doc) :
  exists later : list PointSet,
    solids_from earlier d = earlier ++ later /\ List.length later = List.length d.
Proof.
  revert earlier. induction d as [|o d IH]; intro earlier; simpl.
  - exists []. now rewrite app_nil_r.
  - destruct (IH (earlier ++ [solid_of_object earlier o])) as [later [Heq Hlen]].
    exists (solid_of_object earlier o :: later). split.
    + rewrite Heq, <- app_assoc. reflexivity.
    + simpl. now rewrite Hlen.
Qed.

Lemma solids_from_length (d : Doc) :
  List.length (solids_from [] d) = List.length d.
Proof.
  destruct (solids_from_extends [] d) as [later [Heq Hlen]].
  rewrite Heq. simpl. exact Hlen.
Qed.

(** Objects added to the document do not change the solids behind the
    earlier handles. *)
Lemma solid_retained (d added : Doc) (h : handle) :
  (h < List.length d)%nat -> solid (d ++ added) h = solid d h.
Proof.
  intro Hh. unfold solid. rewrite solids_from_app.
  destruct (solids_from_extends (solids_from [] d) added) as [later [Heq _]].
  rewrite Heq. apply app_nth1. now rewrite solids_from_length.
Qed.

Lemma solid_tool_and_cut (d : Doc) (tool : Obj.t) (part : handle) :
  (part < List.length d)%nat ->
  let d' := d ++ [tool; boolean_object Part_Cut "Cut" part (List.length d)] in
  solid d' (List.length d) = solid_of_object (solids_from [] d) tool
  /\ solid d' (S (List.length d))
     = fun p => solid d part p /\ ~ solid d' (List.length d) p.
Proof.
  intros Hpart d'.
  assert (Hlen := solids_from_length d).
  assert (Htool : solid d' (List.length d) = solid_of_object (solids_from [] d) tool).
  { unfold solid, d'. rewrite solids_from_app. cbn [solids_from].
    rewrite app_nth1 by (rewrite length_app; cbn [List.length]; lia).
    rewrite app_nth2 by lia. now rewrite Hlen, Nat.sub_diag. }
  split; [exact Htool|].
  rewrite Htool. unfold solid, d'. rewrite solids_from_app. cbn [solids_from].
  set (S0 := solids_from [] d) in *.
  set (T := solid_of_object S0 tool).
  assert (HlenT : List.length (S0 ++ [T]) = S (List.length d)).
  { rewrite length_app, Hlen. cbn [List.length]. lia. }
  rewrite app_nth2 by lia.
  rewrite HlenT, Nat.sub_diag. cbn [nth].
  unfold solid_of_object at 1.
  cbn [boolean_object Obj.TypeId Obj.Base Obj.Tool linked].
  rewrite (app_nth1 S0 [T] empty_solid (n := part)) by lia.
  rewrite app_nth2 by lia. now rewrite Hlen, Nat.sub_diag.
Qed.

(** C7: when the tool that [make_hole] places has no point in common with
    the target solid S, the solid of the cut that [make_hole] returns has
    exactly the points of S, and S itself stays in the document as it was.
    [make_hole] checks nothing about the overlap: it raises only when the
    kernel refuses the recomputation. *)
Theorem make_hole_outside_target `{K : Kernel}
        (part : handle) (hole_diameter hole_height : R)
        (hole_position : Triple) (hole_rotation : RotationArg)
        (through_hole : bool) (d d' : Doc) (result : Exn + handle) :
  make_hole part hole_diameter hole_height hole_position hole_rotation
            through_hole d = (d', result) ->
  (part < List.length d)%nat ->
  (forall p : Vector, ~ (solid d part p /\ solid d' (List.length d) p)) ->
  (forall p : Vector, solid d' (S (List.length d)) p <-> solid d part p)
  /\ solid d' part = solid d part
  /\ result = (if kernel_ok d' then inr (S (List.length d))
               else inl RecomputeError).
Proof.
  rewrite make_hole_run. cbv zeta. intros [= <- <-] Hpart Hdisjoint.
  destruct (solid_tool_and_cut
              d (hole_tool hole_diameter hole_height hole_position hole_rotation
                           through_hole) part Hpart) as [_ Hcut].
  cbv zeta in Hcut. repeat split.
  - rewrite Hcut. tauto.
  - rewrite Hcut. intro HS. split; [exact HS|].
    intro Htool. apply (Hdisjoint p). now split.
  - now apply solid_retained.
Qed.

Lemma make_hole_outside_target_witness :
  (forall p : Vector, solid holed_unit_cylinder 2%nat p <-> solid unit_cylinder 0%nat p)
  /\ solid holed_unit_cylinder 0%nat = solid unit_cylinder 0%nat
  /\ @inr Exn handle 2%nat
     = (if kernel_ok (Kernel := accepting_kernel) holed_unit_cylinder
        then inr 2%nat else inl RecomputeError).
Proof.
  apply (make_hole_outside_target (K := accepting_kernel) 0%nat 1 1 (10, 0, 0)
                                  (Tuple (0, 0, 0)) false
                                  unit_cylinder holed_unit_cylinder (inr 2%nat)).
  - reflexivity.
  - simpl. lia.
  - intros p [[q1 [[Hq1 _] Hp1]] [q2 [[Hq2 _] Hp2]]].
    simpl in Hq1, Hq2, Hp1, Hp2.
    rewrite Rotation_axis_Z_0, multVec_null in Hp1.
    rewrite Rotation_ypr_0, multVec_null in Hp2.
    rewrite Hp1 in Hp2. destruct q1, q2. unfold vadd in Hp2; simpl in *.
    injection Hp2 as Hx Hy Hz.
    assert (H1 : vx0 <= 1) by nra.
    assert (H2 : - (1 / 2) <= vx1) by nra.
    lra.
Defined.

(** * Further properties of the helper layer *)

(** ** Composition of rotation lists *)

Lemma compound_rotation_loop_seed (l : list Triple) (acc : Rotation) :
  compound_rotation_loop acc l =
  multiply (compound_rotation_loop Rotation_null l) acc.
Proof.
  revert acc. induction l as [|r l IH]; intro acc; simpl.
  - now rewrite multiply_null_l.
  - rewrite IH, (IH (multiply (create_rotation r) Rotation_null)).
    now rewrite multiply_null_r, multiply_assoc.
Qed.

Lemma compound_rotation_loop_app (a b : list Triple) (acc : Rotation) :
  compound_rotation_loop acc (a ++ b)
  = compound_rotation_loop (compound_rotation_loop acc a) b.
Proof. revert acc. induction a as [|r a IH]; intro acc; simpl; auto. Qed.

(** X1: the rotation of a concatenated list is the rotation of the second
    part times the rotation of the first part, so a list can be built up
    piece by piece; a triple (0,0,0) anywhere in the list changes
    nothing. *)
Theorem compound_rotation_app (l1 l2 : list Triple) :
  compound_rotation (l1 ++ l2)
  = multiply (compound_rotation l2) (compound_rotation l1)
  /\ compound_rotation (l1 ++ (0, 0, 0) :: l2) = compound_rotation (l1 ++ l2).
Proof.
  assert (Happ : forall a b : list Triple,
             compound_rotation (a ++ b)
             = multiply (compound_rotation b) (compound_rotation a)).
  { intros a b. unfold compound_rotation. rewrite Rotation_axis_Z_0.
    rewrite compound_rotation_loop_app.
    apply compound_rotation_loop_seed. }
  split; [apply Happ|].
  rewrite Happ, (Happ l1 l2).
  change ((0, 0, 0) :: l2) with ([(0, 0, 0)] ++ l2). rewrite Happ.
  f_equal. unfold compound_rotation at 2. simpl.
  rewrite Rotation_axis_Z_0, Rotation_ypr_0.
  now rewrite multiply_null_r, multiply_null_r.
Qed.

Lemma radians_plus (a b : R) : radians (a + b) = radians a + radians b.
Proof. unfold radians. field. Qed.

Lemma radians_opp (a : R) : radians (- a) = - radians a.
Proof. unfold radians. field. Qed.

(** X2: two yaws in a row add up: the list [(a,0,0); (b,0,0)] is the single
    rotation (a+b,0,0); in particular a yaw followed by the opposite yaw is
    the null rotation. *)
Theorem compound_rotation_yaws_add (a b : R) :
  compound_rotation [(a, 0, 0); (b, 0, 0)] = create_rotation (a + b, 0, 0)
  /\ compound_rotation [(a, 0, 0); (- a, 0, 0)] = Rotation_null.
Proof.
  assert (Hadd : forall u v : R,
             compound_rotation [(u, 0, 0); (v, 0, 0)] = create_rotation (u + v, 0, 0)).
  { intros u v. unfold compound_rotation, create_rotation; simpl.
    rewrite Rotation_axis_Z_0, multiply_null_r, !Rotation_ypr_yaw, radians_plus.
    unfold rot_z, multiply; simpl.
    rewrite cos_plus, sin_plus. f_equal; ring. }
  split; [apply Hadd|].
  rewrite Hadd. unfold create_rotation.
  replace (a + - a) with 0 by ring. apply Rotation_ypr_0.
Qed.

(** ** Rotations keep lengths *)

Lemma sin2_cos2_mult (t : R) : sin t * sin t + cos t * cos t = 1.
Proof. exact (sin2_cos2 t). Qed.

Lemma rot_x_norm2 (t : R) (v : Vector) : norm2 (multVec (rot_x t) v) = norm2 v.
Proof.
  destruct v as [a b c]. unfold norm2, multVec, rot_x; simpl.
  transitivity (a * a + (sin t * sin t + cos t * cos t) * (b * b + c * c)); [ring|].
  rewrite sin2_cos2_mult. ring.
Qed.

Lemma rot_y_norm2 (t : R) (v : Vector) : norm2 (multVec (rot_y t) v) = norm2 v.
Proof.
  destruct v as [a b c]. unfold norm2, multVec, rot_y; simpl.
  transitivity (b * b + (sin t * sin t + cos t * cos t) * (a * a + c * c)); [ring|].
  rewrite sin2_cos2_mult. ring.
Qed.

Lemma rot_z_norm2 (t : R) (v : Vector) : norm2 (multVec (rot_z t) v) = norm2 v.
Proof.
  destruct v as [a b c]. unfold norm2, multVec, rot_z; simpl.
  transitivity (c * c + (sin t * sin t + cos t * cos t) * (a * a + b * b)); [ring|].
  rewrite sin2_cos2_mult. ring.
Qed.

Lemma create_rotation_norm2 (t : Triple) (v : Vector) :
  norm2 (multVec (create_rotation t) v) = norm2 v.
Proof.
  destruct t as [[a b] c]. unfold create_rotation, Rotation_ypr.
  now rewrite !multVec_multiply, rot_z_norm2, rot_y_norm2, rot_x_norm2.
Qed.

Lemma compound_rotation_norm2 (l : list Triple) (v : Vector) :
  norm2 (multVec (compound_rotation l) v) = norm2 v.
Proof.
  unfold compound_rotation.
  rewrite compound_rotation_loop_multVec, Rotation_axis_Z_0, multVec_null.
  revert v. induction l as [|r l IH]; intro v; simpl; [reflexivity|].
  now rewrite IH, create_rotation_norm2.
Qed.

(** X3: the rotation of one triple and the rotation composed from any list
    of triples keep the length of every vector: the tool is turned, never
    stretched or flattened. *)
Theorem compound_rotation_keeps_length (l : list Triple) (v : Vector) :
  norm2 (multVec (compound_rotation l) v) = norm2 v
  /\ forall t : Triple, norm2 (multVec (create_rotation t) v) = norm2 v.
Proof.
  split; [apply compound_rotation_norm2 | intro t; apply create_rotation_norm2].
Qed.

Lemma hole_rotation_of_norm2 (hole_rotation : RotationArg) (v : Vector) :
  norm2 (multVec (hole_rotation_of hole_rotation) v) = norm2 v.
Proof.
  destruct hole_rotation as [t|l]; simpl.
  - apply create_rotation_norm2.
  - apply compound_rotation_norm2.
Qed.

(** X4: where [make_hole] puts its tool along the hole axis.  With
    [through_hole=True] the tool is moved back by exactly half its height,
    whatever the rotation, and the hole position is the middle of the tool
    axis; with [through_hole=False] the tool starts at the hole position. *)
Theorem make_hole_tool_along_axis `{K : Kernel}
        (part : handle) (hole_diameter hole_height : R)
        (hole_position : Triple) (hole_rotation : RotationArg) (d : Doc) :
  (exists tool : Obj.t,
      nth_error
        (fst (make_hole part hole_diameter hole_height hole_position hole_rotation
                        true d))
        (List.length d) = Some tool
      /\ Obj.Height tool = hole_height
      /\ Obj.Radius tool = hole_diameter / 2
      /\ norm2 (vsub (Vector_of hole_position) (Base (Obj.Placement tool)))
         = (hole_height / 2) * (hole_height / 2)
      /\ vadd (Base (Obj.Placement tool))
              (multVec (Rotation_ (Obj.Placement tool))
                       (mkVector 0 0 (Obj.Height tool / 2)))
         = Vector_of hole_position)
  /\ (exists tool : Obj.t,
         nth_error
           (fst (make_hole part hole_diameter hole_height hole_position
                           hole_rotation false d))
           (List.length d) = Some tool
         /\ Obj.Height tool = hole_height
         /\ Obj.Radius tool = hole_diameter / 2
         /\ Rotation_ (Obj.Placement tool) = hole_rotation_of hole_rotation
         /\ Base (Obj.Placement tool) = Vector_of hole_position).
Proof.
  split.
  - exists (hole_tool hole_diameter hole_height hole_position hole_rotation true).
    split; [apply make_hole_tool|].
    unfold hole_tool; simpl.
    set (w := multVec (hole_rotation_of hole_rotation)
                      (mkVector 0 0 (hole_height / 2))).
    assert (Hw : norm2 w = (hole_height / 2) * (hole_height / 2)).
    { unfold w. rewrite hole_rotation_of_norm2. unfold norm2; simpl. ring. }
    repeat split.
    + rewrite <- Hw. destruct (Vector_of hole_position), w.
      unfold norm2, vsub; simpl. ring.
    + destruct (Vector_of hole_position), w. unfold vadd, vsub; simpl.
      f_equal; ring.
  - exists (hole_tool hole_diameter hole_height hole_position hole_rotation false).
    split; [apply make_hole_tool|]. repeat split.
Qed.

(** ** The solids the helpers build *)

Lemma solids_from_snoc (d : Doc) (o : Obj.t) :
  solids_from [] (d ++ [o])
  = solids_from [] d ++ [solid_of_object (solids_from [] d) o].
Proof. rewrite solids_from_app. reflexivity. Qed.

Lemma solid_last (d : Doc) (o : Obj.t) :
  solid (d ++ [o]) (List.length d) = solid_of_object (solids_from [] d) o.
Proof.
  unfold solid. rewrite solids_from_snoc.
  rewrite app_nth2 by (rewrite solids_from_length; lia).
  now rewrite solids_from_length, Nat.sub_diag.
Qed.

Lemma vsub_vadd (b q : Vector) : vsub (vadd b q) b = q.
Proof. destruct b, q. unfold vsub, vadd; simpl. f_equal; ring. Qed.

Lemma vadd_vsub (b p : Vector) : vadd b (vsub p b) = p.
Proof. destruct b, p. unfold vsub, vadd; simpl. f_equal; ring. Qed.

Lemma placed_null (b : Vector) (s : PointSet) (p : Vector) :
  placed (mkPlacement b Rotation_null) s p <-> s (vsub p b).
Proof.
  unfold placed; simpl. split.
  - intros [q [Hq Hp]]. rewrite multVec_null in Hp. subst p.
    now rewrite vsub_vadd.
  - intro Hs. exists (vsub p b). split; [exact Hs|].
    now rewrite multVec_null, vadd_vsub.
Qed.

Lemma placed_upright (b : Vector) (s : PointSet) (p : Vector) :
  placed (mkPlacement b (Rotation_axis_angle (mkVector 0 0 1) 0)) s p
  <-> s (vsub p b).
Proof. rewrite Rotation_axis_Z_0. apply placed_null. Qed.

Lemma upright_cylinder_solid (height radius : R) (position : Triple) (d : Doc)
      (p : Vector) :
  solid (fst (create_cylinder height radius position d)) (List.length d) p
  <-> (vx p - vx (Vector_of position)) * (vx p - vx (Vector_of position))
      + (vy p - vy (Vector_of position)) * (vy p - vy (Vector_of position))
      <= radius * radius
      /\ 0 <= vz p - vz (Vector_of position) <= height.
Proof.
  rewrite create_cylinder_run. cbn [fst]. rewrite solid_last.
  unfold solid_of_object; cbn [Obj.TypeId Obj.Placement Obj.Radius Obj.Height].
  rewrite placed_upright. unfold in_cylinder, vsub; simpl. tauto.
Qed.

(** X5: [create_cylinder] leaves an upright cylinder in the document: its
    solid is the set of points within [radius] of the vertical line through
    [position], between the height of [position] and [height] above it. *)
Theorem create_cylinder_solid (height radius : R) (position : Triple) (d : Doc)
        (p : Vector) :
  solid (fst (create_cylinder height radius position d)) (List.length d) p
  <-> (vx p - vx (Vector_of position)) * (vx p - vx (Vector_of position))
      + (vy p - vy (Vector_of position)) * (vy p - vy (Vector_of position))
      <= radius * radius
      /\ 0 <= vz p - vz (Vector_of position) <= height.
Proof. apply upright_cylinder_solid. Qed.

(** X6: the object [make_hole] returns stands for the part without the
    points of the tool cylinder, for every rotation and both values of
    [through_hole]; a hole never adds material. *)
Theorem make_hole_removes_tool `{K : Kernel}
        (part : handle) (hole_diameter hole_height : R)
        (hole_position : Triple) (hole_rotation : RotationArg)
        (through_hole : bool) (d : Doc) :
  (part < List.length d)%nat ->
  exists tool : Obj.t,
    nth_error
      (fst (make_hole part hole_diameter hole_height hole_position hole_rotation
                      through_hole d))
      (List.length d) = Some tool
    /\ (forall p : Vector,
           solid (fst (make_hole part hole_diameter hole_height hole_position
                                 hole_rotation through_hole d))
                 (S (List.length d)) p
           <-> solid d part p /\ ~ cylinder_solid tool p)
    /\ (forall p : Vector,
           solid (fst (make_hole part hole_diameter hole_height hole_position
                                 hole_rotation through_hole d))
                 (S (List.length d)) p
           -> solid d part p).
Proof.
  intro Hpart.
  exists (hole_tool hole_diameter hole_height hole_position hole_rotation
                    through_hole).
  split; [apply make_hole_tool|].
  rewrite make_hole_run. cbn [fst].
  destruct (solid_tool_and_cut
              d (hole_tool hole_diameter hole_height hole_position hole_rotation
                           through_hole) part Hpart) as [Htool Hcut].
  cbv zeta in Htool, Hcut. rewrite Hcut, Htool.
  split; intro p; [reflexivity | tauto].
Qed.

Lemma make_hole_removes_tool_witness :
  exists tool : Obj.t,
    nth_error holed_unit_cylinder 1%nat = Some tool
    /\ (forall p : Vector,
           solid holed_unit_cylinder 2%nat p
           <-> solid unit_cylinder 0%nat p /\ ~ cylinder_solid tool p)
    /\ (forall p : Vector,
           solid holed_unit_cylinder 2%nat p -> solid unit_cylinder 0%nat p).
Proof.
  apply (make_hole_removes_tool (K := accepting_kernel) 0%nat 1 1 (10, 0, 0)
                                (Tuple (0, 0, 0)) false unit_cylinder).
  simpl. lia.
Defined.

Section BooleanSolids.

Context `{K : Kernel}.

Lemma cut_solid (base_cylinder tool_cylinder : handle) (d : Doc) (p : Vector) :
  solid (fst (cut base_cylinder tool_cylinder d)) (List.length d) p
  <-> solid d base_cylinder p /\ ~ solid d tool_cylinder p.
Proof. rewrite cut_run. cbn [fst]. rewrite solid_last. reflexivity. Qed.

Lemma join_parts_solid (part1 part2 : handle) (d : Doc) (p : Vector) :
  solid (fst (join_parts part1 part2 d)) (List.length d) p
  <-> solid d part1 p \/ solid d part2 p.
Proof. rewrite join_parts_run. cbn [fst]. rewrite solid_last. reflexivity. Qed.

End BooleanSolids.

(** X7: the object [cut] returns stands for the base without the points of
    the tool, and the object [join_parts] returns for the union of its two
    parts.  So a cut never has a point outside its base, a part cut with
    itself leaves nothing, the order of the two arguments of [join_parts]
    does not change the solid, and a part joined with itself is that
    part. *)
Theorem boolean_helpers_solids `{K : Kernel} (part1 part2 : handle) (d : Doc)
        (p : Vector) :
  (solid (fst (cut part1 part2 d)) (List.length d) p
   <-> solid d part1 p /\ ~ solid d part2 p)
  /\ ~ solid (fst (cut part1 part1 d)) (List.length d) p
  /\ (solid (fst (join_parts part1 part2 d)) (List.length d) p
      <-> solid d part1 p \/ solid d part2 p)
  /\ (solid (fst (join_parts part1 part2 d)) (List.length d) p
      <-> solid (fst (join_parts part2 part1 d)) (List.length d) p)
  /\ (solid (fst (join_parts part1 part1 d)) (List.length d) p
      <-> solid d part1 p).
Proof.
  rewrite !cut_solid, !join_parts_solid. tauto.
Qed.

(** X8: the compound [create_centered_rectangle] returns stands for the box
    [-length/2, length/2] x [-width/2, width/2] x [0, height]; it is
    symmetric about the Z axis. *)
Theorem create_centered_rectangle_solid `{K : Kernel}
        (length width height : R) (label : string) (d : Doc) (p : Vector) :
  (solid (fst (create_centered_rectangle length width height label d))
         (S (List.length d)) p
   <-> - length / 2 <= vx p <= length / 2
       /\ - width / 2 <= vy p <= width / 2
       /\ 0 <= vz p <= height)
  /\ (solid (fst (create_centered_rectangle length width height label d))
            (S (List.length d)) p
      <-> solid (fst (create_centered_rectangle length width height label d))
                (S (List.length d)) (mkVector (- vx p) (- vy p) (vz p))).
Proof.
  assert (Hchar : forall q : Vector,
             solid (fst (create_centered_rectangle length width height label d))
                   (S (List.length d)) q
             <-> - length / 2 <= vx q <= length / 2
                 /\ - width / 2 <= vy q <= width / 2
                 /\ 0 <= vz q <= height).
  { intro q. rewrite create_centered_rectangle_run. cbn [fst].
    change (d ++ [centered_box length width height
                               (mkVector (- length / 2) (- width / 2) 0);
                  compound_of label [List.length d]])
      with (d ++ [centered_box length width height
                               (mkVector (- length / 2) (- width / 2) 0)]
              ++ [compound_of label [List.length d]]).
    rewrite app_assoc, <- (length_snoc d (centered_box length width height
                               (mkVector (- length / 2) (- width / 2) 0))).
    rewrite solid_last, solids_from_snoc.
    unfold solid_of_object at 1.
    cbn [compound_of Obj.TypeId Obj.Placement Obj.Links].
    unfold Placement_null. rewrite placed_null.
    split.
    - intros [h [[<-|[]] Hq]].
      rewrite app_nth2 in Hq by (rewrite solids_from_length; lia).
      rewrite solids_from_length, Nat.sub_diag in Hq. cbn [nth] in Hq.
      unfold solid_of_object in Hq.
      cbn [centered_box Obj.TypeId Obj.Placement Obj.Length Obj.Width Obj.Height]
        in Hq.
      rewrite placed_null in Hq. unfold in_box, vsub in Hq; simpl in Hq. lra.
    - intro Hq. exists (List.length d). split; [now left|].
      rewrite app_nth2 by (rewrite solids_from_length; lia).
      rewrite solids_from_length, Nat.sub_diag. cbn [nth].
      unfold solid_of_object.
      cbn [centered_box Obj.TypeId Obj.Placement Obj.Length Obj.Width Obj.Height].
      rewrite placed_null. unfold in_box, vsub; simpl. lra. }
  split; [apply Hchar|].
  rewrite !Hchar. simpl. lra.
Qed.

(** X9: the first text of the centred box, in [create_base_v1.py] and in
    [unnamed/part_000], puts the box where the current text puts it exactly
    when length and width are equal. *)
Theorem create_centered_rectangle_v1_centered_iff_square `{K : Kernel}
        (length width height : R) (label : string) (d : Doc) :
  (exists box : Obj.t,
      nth_error
        (fst (create_base_v1.create_centered_rectangle length width height label d))
        (List.length d) = Some box
      /\ Obj.Length box = length /\ Obj.Width box = width
      /\ (Base (Obj.Placement box) = mkVector (- length / 2) (- width / 2) 0
          <-> length = width))
  /\ (exists box : Obj.t,
         nth_error
           (fst (part_000.create_centered_rectangle length width height label d))
           (List.length d) = Some box
         /\ Obj.Length box = length /\ Obj.Width box = width
         /\ (Base (Obj.Placement box) = mkVector (- length / 2) (- width / 2) 0
             <-> length = width)).
Proof.
  assert (Hiff : mkVector (- width / 2) (- length / 2) 0
                 = mkVector (- length / 2) (- width / 2) 0 <-> length = width).
  { split.
    - intro Heq. apply (f_equal vx) in Heq. simpl in Heq. lra.
    - intros ->. reflexivity. }
  split.
  - rewrite create_centered_rectangle_v1_run. cbn [fst].
    rewrite nth_error_app2 by lia. rewrite Nat.sub_diag.
    eexists. split; [reflexivity|]. simpl. auto.
  - rewrite create_centered_rectangle_part_000_run. cbn [fst].
    rewrite nth_error_app2 by lia. rewrite Nat.sub_diag.
    eexists. split; [reflexivity|]. simpl. auto.
Qed.

(** X10: the object [create_hollow_cylinder] returns for an inner radius
    below the outer one stands for a ring: the points whose distance to the
    vertical line through [position] is above the inner and at most the
    outer radius, over the height; no point of that line is in it. *)
Theorem create_hollow_cylinder_solid
        (outer_radius inner_radius height : R) (position : Triple) (d : Doc)
        (p : Vector) (z : R) :
  inner_radius < outer_radius ->
  (solid (fst (create_hollow_cylinder outer_radius inner_radius height position d))
         (List.length d) p
   <-> inner_radius * inner_radius
       < (vx p - vx (Vector_of position)) * (vx p - vx (Vector_of position))
         + (vy p - vy (Vector_of position)) * (vy p - vy (Vector_of position))
       <= outer_radius * outer_radius
       /\ 0 <= vz p - vz (Vector_of position) <= height)
  /\ ~ solid (fst (create_hollow_cylinder outer_radius inner_radius height
                                          position d))
             (List.length d)
             (mkVector (vx (Vector_of position)) (vy (Vector_of position)) z).
Proof.
  intro Hlt.
  assert (Hchar : forall q : Vector,
    solid (fst (create_hollow_cylinder outer_radius inner_radius height position d))
          (List.length d) q
    <-> inner_radius * inner_radius
        < (vx q - vx (Vector_of position)) * (vx q - vx (Vector_of position))
          + (vy q - vy (Vector_of position)) * (vy q - vy (Vector_of position))
        <= outer_radius * outer_radius
        /\ 0 <= vz q - vz (Vector_of position) <= height).
  { intro q. rewrite create_hollow_cylinder_run by assumption. cbn [fst].
    rewrite solid_last. unfold solid_of_object.
    cbn [hollow_cylinder_part Obj.TypeId Obj.Shape Obj.Placement].
    unfold Placement_null. rewrite placed_null.
    cbn [in_shape]. unfold in_cylinder, vsub; simpl.
    set (dd := (vx q - 0 - vx (Vector_of position))
               * (vx q - 0 - vx (Vector_of position))
               + (vy q - 0 - vy (Vector_of position))
                 * (vy q - 0 - vy (Vector_of position))).
    replace ((vx q - vx (Vector_of position)) * (vx q - vx (Vector_of position))
             + (vy q - vy (Vector_of position)) * (vy q - vy (Vector_of position)))
      with dd by (unfold dd; ring).
    replace (vz q - 0 - vz (Vector_of position))
      with (vz q - vz (Vector_of position)) by ring.
    split.
    - intros [[Ho Hz] Hn].
      destruct (Rle_lt_dec dd (inner_radius * inner_radius)) as [Hle|Hgt].
      + exfalso. apply Hn. split; assumption.
      + lra.
    - intros [[Hi Ho] Hz]. split; [split; assumption|].
      intros [Hle _]. lra. }
  split; [apply Hchar|].
  rewrite Hchar. simpl. intros [[Hi _] _].
  assert (0 <= inner_radius * inner_radius) by nra. lra.
Qed.

Lemma create_hollow_cylinder_solid_witness :
  (solid (fst (create_hollow_cylinder 2 1 5 (0, 0, 0) [])) 0%nat
         (mkVector (3 / 2) 0 1)
   <-> 1 * 1 < (3 / 2 - 0) * (3 / 2 - 0) + (0 - 0) * (0 - 0) <= 2 * 2
       /\ 0 <= 1 - 0 <= 5)
  /\ ~ solid (fst (create_hollow_cylinder 2 1 5 (0, 0, 0) [])) 0%nat
             (mkVector 0 0 1).
Proof.
  apply (create_hollow_cylinder_solid 2 1 5 (0, 0, 0) [] (mkVector (3 / 2) 0 1) 1).
  lra.
Defined.

(** X11: every helper call, the factories included, hands back a handle of
    an object it has just added, and leaves all earlier objects in place
    and unchanged; none hands back one of its arguments. *)
Theorem every_call_only_adds `{K : Kernel} (c : Call) : only_adds (exec c).
Proof.
  destruct c; cbn [exec].
  - apply only_adds_intro. intro d. rewrite create_cylinder_run. cbn [fst snd].
    eexists. split; [reflexivity|]. simpl. lia.
  - apply cut_only_adds.
  - apply make_hole_only_adds.
  - apply join_parts_only_adds.
  - apply only_adds_intro. intro d. rewrite create_centered_rectangle_run.
    cbn [fst snd]. eexists. split; [reflexivity|].
    destruct (kernel_ok _); [simpl; lia | exact I].
  - apply only_adds_intro. intro d.
    destruct (Rge_dec inner_radius outer_radius) as [Hge|Hn].
    + rewrite create_hollow_cylinder_raise by assumption. cbn [fst snd].
      exists []. split; [now rewrite app_nil_r | exact I].
    + rewrite create_hollow_cylinder_run by lra. cbn [fst snd].
      eexists. split; [reflexivity|]. simpl. lia.
Qed.

(** ** The hole pattern of [create_base_v2.py] *)

(** X12: whatever the index, the centre computed for a hole at a distance R
    lies on the circle of radius R about the origin. *)
Theorem hole_centres_on_circle (distance : R) (i : nat) :
  create_base_v2.x distance i * create_base_v2.x distance i
  + create_base_v2.y distance i * create_base_v2.y distance i
  = distance * distance.
Proof.
  unfold create_base_v2.x, create_base_v2.y.
  set (t := radians (create_base_v2.angle i)).
  transitivity ((sin t * sin t + cos t * cos t) * (distance * distance)); [ring|].
  rewrite sin2_cos2_mult. ring.
Qed.

(** X13: the pattern is regular and closes: one step of the index turns the
    angle by 45 degrees, eight steps give the same centre again and four
    steps the opposite one. *)
Theorem hole_pattern_is_regular (distance : R) (i : nat) :
  create_base_v2.angle (S i) - create_base_v2.angle i = 45
  /\ create_base_v2.x distance (i + 8) = create_base_v2.x distance i
  /\ create_base_v2.y distance (i + 8) = create_base_v2.y distance i
  /\ create_base_v2.x distance (i + 4) = - create_base_v2.x distance i
  /\ create_base_v2.y distance (i + 4) = - create_base_v2.y distance i.
Proof.
  assert (H8 : radians (create_base_v2.angle (i + 8))
               = radians (create_base_v2.angle i) + 2 * PI).
  { rewrite !create_base_v2_facts.angle_closed_form, plus_INR.
    replace (INR 8) with 8 by (simpl; lra). unfold radians. field. }
  assert (H4 : radians (create_base_v2.angle (i + 4))
               = radians (create_base_v2.angle i) + PI).
  { rewrite !create_base_v2_facts.angle_closed_form, plus_INR.
    replace (INR 4) with 4 by (simpl; lra). unfold radians. field. }
  unfold create_base_v2.x, create_base_v2.y.
  rewrite H8, H4, cos_plus, sin_plus, cos_2PI, sin_2PI, neg_cos, neg_sin.
  repeat split; try ring.
  rewrite !create_base_v2_facts.angle_closed_form, S_INR. lra.
Qed.

Lemma tool_cut_solid (d : Doc) (tool : Obj.t) (part : handle) (p : Vector) :
  Obj.TypeId tool = Part_Cylinder ->
  (part < List.length d)%nat ->
  solid (d ++ [tool; boolean_object Part_Cut "Cut" part (List.length d)])
        (S (List.length d)) p
  <-> solid d part p /\ ~ cylinder_solid tool p.
Proof.
  intros Hty Hpart.
  destruct (solid_tool_and_cut d tool part Hpart) as [Htool Hcut].
  cbv zeta in Htool, Hcut. rewrite Hcut, Htool.
  unfold solid_of_object. rewrite Hty. reflexivity.
Qed.

(** The bore of a tool of the loop: a vertical cylinder of radius 3.5 that
    reaches from 500 below to 500 above the plane Z = 0. *)
Lemma loop_tool_solid (distance : R) (i : nat) (p : Vector) :
  cylinder_solid
    (hole_tool (create_base_v2.m5_size * 2) create_base_v2.HOLE_INF
               (create_base_v2.x distance i, create_base_v2.y distance i, 0)
               (Tuple (0, 0, 0)) true) p
  <-> (vx p - create_base_v2.x distance i) * (vx p - create_base_v2.x distance i)
      + (vy p - create_base_v2.y distance i) * (vy p - create_base_v2.y distance i)
      <= 3.5 * 3.5
      /\ - 500 <= vz p <= 500.
Proof.
  unfold cylinder_solid, hole_tool.
  cbn [Obj.Placement Obj.Radius Obj.Height hole_rotation_of create_rotation].
  rewrite Rotation_ypr_0, multVec_null, placed_null.
  unfold in_cylinder, vsub, create_base_v2.m5_size, create_base_v2.tolerance,
    create_base_v2.HOLE_INF; cbn [vx vy vz Vector_of].
  rewrite !Rminus_0_r.
  replace ((2.5 + 0.5 * 2) * 2 / 2 * ((2.5 + 0.5 * 2) * 2 / 2)) with (3.5 * 3.5)
    by lra.
  lra.
Qed.

Section DrilledPlate.

Context `{K : Kernel}.

Lemma for_each_holes_result (k s : nat) (base_cylinder h : handle) (d d' : Doc) :
  create_base_v2.for_each (seq s k) create_base_v2.holes_body base_cylinder d
  = (d', inr h) ->
  (base_cylinder < List.length d)%nat ->
  List.length d' = (List.length d + 4 * k)%nat
  /\ h = match k with
         | O => base_cylinder
         | S _ => (List.length d + 4 * k - 1)%nat
         end
  /\ forall p : Vector,
       solid d' h p
       <-> solid d base_cylinder p
           /\ forall j : nat, (j < k)%nat ->
                ~ cylinder_solid (create_base_v2.first_tool (s + j)) p
                /\ ~ cylinder_solid (create_base_v2.second_tool (s + j)) p.
Proof.
  revert s base_cylinder d. induction k as [|k IH]; intros s base_cylinder d Hrun Hbase.
  - simpl in Hrun. injection Hrun as <- <-.
    split; [lia|]. split; [reflexivity|].
    intro p. split; [intro Hp; split; [exact Hp | intros j Hj; lia] | tauto].
  - cbn [seq create_base_v2.for_each] in Hrun. unfold bind in Hrun.
    rewrite create_base_v2_facts.holes_body_run in Hrun. cbv zeta in Hrun.
    set (t1 := create_base_v2.first_tool s) in *.
    set (t2 := create_base_v2.second_tool s) in *.
    set (d1 := d ++ [t1; boolean_object Part_Cut "Cut" base_cylinder (List.length d)])
      in *.
    set (d2 := d1 ++ [t2; boolean_object Part_Cut "Cut" (S (List.length d))
                                         (List.length d1)]) in *.
    destruct (kernel_ok d1); [|discriminate].
    destruct (kernel_ok d2); [|discriminate].
    assert (Hlen1 : List.length d1 = (List.length d + 2)%nat).
    { unfold d1. rewrite length_app. reflexivity. }
    assert (Hlen2 : List.length d2 = (List.length d + 4)%nat).
    { unfold d2. rewrite length_app, Hlen1. simpl. lia. }
    apply IH in Hrun; [|lia]. destruct Hrun as [Hlen [Hh Hsolid]].
    split; [lia|]. split.
    + rewrite Hh. destruct k; lia.
    + intro p. rewrite Hsolid.
      assert (Hstep : solid d2 (S (List.length d1)) p
                      <-> solid d base_cylinder p
                          /\ ~ cylinder_solid t1 p /\ ~ cylinder_solid t2 p).
      { unfold d2. rewrite tool_cut_solid; [|reflexivity|lia].
        unfold d1. rewrite tool_cut_solid; [|reflexivity|assumption]. tauto. }
      rewrite Hstep. split.
      * intros [[Hb [H1 H2]] Hrest]. split; [exact Hb|].
        intros [|j] Hj.
        -- rewrite Nat.add_0_r. split; assumption.
        -- replace (s + S j)%nat with (S s + j)%nat by lia. apply Hrest. lia.
      * intros [Hb Hall]. split.
        -- split; [exact Hb|].
           specialize (Hall 0%nat ltac:(lia)). now rewrite Nat.add_0_r in Hall.
        -- intros j Hj. replace (S s + j)%nat with (s + S j)%nat by lia.
           apply Hall. lia.
Qed.

Lemma for_each_holes_raises (k s : nat) (base_cylinder : handle) (d d' : Doc)
      (e : Exn) :
  create_base_v2.for_each (seq s k) create_base_v2.holes_body base_cylinder d
  = (d', inl e) ->
  retains d d' /\ e = RecomputeError /\ kernel_ok d' = false.
Proof.
  revert s base_cylinder d. induction k as [|k IH]; intros s base_cylinder d Hrun.
  - discriminate.
  - cbn [seq create_base_v2.for_each] in Hrun. unfold bind in Hrun.
    rewrite create_base_v2_facts.holes_body_run in Hrun. cbv zeta in Hrun.
    set (d1 := d ++ [create_base_v2.first_tool s;
                     boolean_object Part_Cut "Cut" base_cylinder (List.length d)])
      in *.
    set (d2 := d1 ++ [create_base_v2.second_tool s;
                      boolean_object Part_Cut "Cut" (S (List.length d))
                                     (List.length d1)]) in *.
    assert (Hr1 : retains d d1) by apply retains_app.
    assert (Hr2 : retains d d2).
    { apply retains_trans with d1; [exact Hr1 | apply retains_app]. }
    destruct (kernel_ok d1) eqn:Hk1.
    + destruct (kernel_ok d2) eqn:Hk2.
      * apply IH in Hrun. destruct Hrun as [Hret Hrest].
        split; [|exact Hrest]. now apply retains_trans with d2.
      * injection Hrun as <- <-. auto.
    + injection Hrun as <- <-. auto.
Qed.

End DrilledPlate.

(** X14: when the hole loop of [create_base_v2.py] runs through, the
    document has 33 more objects and the returned part is the last of them.
    The part stands for the disc of radius 95 and height 5 without sixteen
    vertical bores of radius 3.5 that go right through it, two for each
    i = 0..7, centred at the distances 85 and 70 on the ray of angle
    22.5 + 45 i. *)
Theorem drilled_plate_solid `{K : Kernel} (d d' : Doc) (h : handle) (p : Vector) :
  create_base_v2.main_holes d = (d', inr h) ->
  List.length d' = (List.length d + 33)%nat
  /\ h = (List.length d + 32)%nat
  /\ retains d d'
  /\ (solid d' h p
      <-> (vx p * vx p + vy p * vy p <= 95 * 95 /\ 0 <= vz p <= 5)
          /\ forall i : nat, (i < 8)%nat ->
               3.5 * 3.5
               < (vx p - create_base_v2.x 85 i) * (vx p - create_base_v2.x 85 i)
                 + (vy p - create_base_v2.y 85 i) * (vy p - create_base_v2.y 85 i)
               /\ 3.5 * 3.5
                  < (vx p - create_base_v2.x 70 i) * (vx p - create_base_v2.x 70 i)
                    + (vy p - create_base_v2.y 70 i)
                      * (vy p - create_base_v2.y 70 i)).
Proof.
  unfold create_base_v2.main_holes, bind. rewrite create_cylinder_run.
  intro Hrun.
  pose proof (create_base_v2_facts.for_each_holes _ _ _ _ _ _ Hrun) as [Hret _].
  apply for_each_holes_result in Hrun; [|rewrite length_snoc; lia].
  destruct Hrun as [Hlen [Hh Hsolid]].
  rewrite length_snoc in Hlen, Hh.
  unfold create_base_v2.number_of_holes in *.
  split; [lia|]. split; [simpl in Hh; lia|].
  split.
  { apply retains_trans with (2 := Hret). apply retains_app. }
  rewrite Hsolid.
  pose proof (upright_cylinder_solid create_base_v2.base_cylinder_height
                create_base_v2.base_cylinder_radius (0, 0, 0) d p) as Hcyl.
  rewrite create_cylinder_run in Hcyl. cbn [fst] in Hcyl. rewrite Hcyl.
  unfold create_base_v2.base_cylinder_height, create_base_v2.base_cylinder_radius.
  cbn [Vector_of vx vy vz].
  replace (vx p - 0) with (vx p) by ring.
  replace (vy p - 0) with (vy p) by ring.
  replace (vz p - 0) with (vz p) by ring.
  assert (H85 : create_base_v2.first_hole_distance_from_center = 85).
  { unfold create_base_v2.first_hole_distance_from_center,
      create_base_v2.base_cylinder_radius. ring. }
  assert (H70 : create_base_v2.second_hole_distance_from_center = 70).
  { unfold create_base_v2.second_hole_distance_from_center,
      create_base_v2.base_cylinder_radius. ring. }
  split.
  - intros [Hplate Hall]. split; [exact Hplate|].
    intros i Hi. destruct (Hall i Hi) as [H1 H2]. simpl in H1, H2.
    unfold create_base_v2.first_tool in H1. unfold create_base_v2.second_tool in H2.
    rewrite loop_tool_solid, H85 in H1. rewrite loop_tool_solid, H70 in H2.
    split.
    + apply Rnot_le_lt. intro Hle. apply H1. split; [exact Hle | lra].
    + apply Rnot_le_lt. intro Hle. apply H2. split; [exact Hle | lra].
  - intros [Hplate Hall]. split; [exact Hplate|].
    intros i Hi. destruct (Hall i Hi) as [H1 H2]. simpl.
    unfold create_base_v2.first_tool, create_base_v2.second_tool.
    rewrite !loop_tool_solid, H85, H70.
    split; intros [Hle _]; lra.
Qed.

Lemma drilled_plate_solid_witness :
  List.length drilled_base = (0 + 33)%nat
  /\ 32%nat = (0 + 32)%nat
  /\ retains [] drilled_base
  /\ (solid drilled_base 32%nat (mkVector 0 0 1)
      <-> (0 * 0 + 0 * 0 <= 95 * 95 /\ 0 <= 1 <= 5)
          /\ forall i : nat, (i < 8)%nat ->
               3.5 * 3.5
               < (0 - create_base_v2.x 85 i) * (0 - create_base_v2.x 85 i)
                 + (0 - create_base_v2.y 85 i) * (0 - create_base_v2.y 85 i)
               /\ 3.5 * 3.5
                  < (0 - create_base_v2.x 70 i) * (0 - create_base_v2.x 70 i)
                    + (0 - create_base_v2.y 70 i) * (0 - create_base_v2.y 70 i)).
Proof.
  apply (drilled_plate_solid (K := accepting_kernel) [] drilled_base 32%nat
                             (mkVector 0 0 1)).
  reflexivity.
Defined.

(** X15: when the hole loop raises, it is a refused recomputation: the
    document is the one the kernel refused, with every object that was
    there before the loop started. *)
Theorem drilling_raises_only_on_recompute `{K : Kernel} (d d' : Doc) (e : Exn) :
  create_base_v2.main_holes d = (d', inl e) ->
  retains d d' /\ e = RecomputeError /\ kernel_ok d' = false.
Proof.
  unfold create_base_v2.main_holes, bind. rewrite create_cylinder_run.
  intro Hrun. apply for_each_holes_raises in Hrun.
  destruct Hrun as [Hret Hrest]. split; [|exact Hrest].
  apply retains_trans with (2 := Hret). apply retains_app.
Qed.

Lemma drilling_raises_only_on_recompute_witness :
  retains [] (fst (create_base_v2.main_holes (K := small_kernel) []))
  /\ RecomputeError = RecomputeError
  /\ kernel_ok (Kernel := small_kernel)
               (fst (create_base_v2.main_holes (K := small_kernel) []))
     = false.
Proof.
  apply (drilling_raises_only_on_recompute (K := small_kernel) []
           (fst (create_base_v2.main_holes (K := small_kernel) []))
           RecomputeError).
  reflexivity.
Defined.

(** ** Turning an object about the centre of its bounding box *)

Lemma modify_length (h : handle) (f : Obj.t -> Obj.t) (d : Doc) :
  List.length (modify h f d) = List.length d.
Proof.
  revert h. induction d as [|o d IH]; intros [|h]; simpl; auto.
Qed.

Lemma modify_nth_error_same (h : handle) (f : Obj.t -> Obj.t) (d : Doc) :
  nth_error (modify h f d) h = option_map f (nth_error d h).
Proof.
  revert h. induction d as [|o d IH]; intros [|h]; simpl; auto.
Qed.

Lemma modify_nth_error_other (h k : handle) (f : Obj.t -> Obj.t) (d : Doc) :
  k <> h -> nth_error (modify h f d) k = nth_error d k.
Proof.
  revert h k. induction d as [|o d IH]; intros [|h] [|k] Hk; simpl; auto;
    try contradiction.
Qed.

Lemma Rotation_axis_angle_0 (axis : Vector) :
  Rotation_axis_angle axis 0 = Rotation_null.
Proof.
  unfold Rotation_axis_angle, Rotation_null.
  rewrite radians_0, cos_0, sin_0. cbv zeta. f_equal; ring.
Qed.

(** The placement [rotate_object_around_center] computes, lines 133-137. *)
Lemma placement_about_center (center : Vector) (rotation : Rotation) :
  Placement_multVec
    (mkPlacement (Placement_multVec (mkPlacement center rotation) (vneg center))
                 rotation)
    center
  = center.
Proof.
  destruct center as [a b c], rotation.
  unfold Placement_multVec, vadd, vneg, multVec; simpl. f_equal; ring.
Qed.

(** X16: [rotate_object_around_center] raises exactly when the host finds no
    object under the name, and then with the message that carries the name
    and with the document untouched. *)
Theorem rotate_object_around_center_not_found `{Q : Queries}
        (object_name : string) (axis : AxisArg) (angle : R) (d : Doc) :
  ((exists e : Exn,
       snd (rotate_object_around_center object_name axis angle d) = inl e)
   <-> getObject d object_name = None)
  /\ (getObject d object_name = None ->
      rotate_object_around_center object_name axis angle d
      = (d, inl (ValueError ("Object not found: " ++ object_name)%string))).
Proof.
  unfold rotate_object_around_center, bind, ask, raise, setattr.
  destruct (getObject d object_name) as [h|]; simpl.
  - split; [split|]; [intros [e He]|intro He|intro He]; discriminate.
  - split; [split|]; auto. intros _. now eexists.
Qed.

Lemma rotate_object_around_center_not_found_witness :
  rotate_object_around_center (Q := plain_queries) "Arm" (AxisTuple (1, 0, 0)) 180
                              unit_cylinder
  = (unit_cylinder, inl (ValueError "Object not found: Arm")).
Proof.
  apply (proj2 (rotate_object_around_center_not_found
                  (Q := plain_queries) "Arm" (AxisTuple (1, 0, 0)) 180
                  unit_cylinder)).
  reflexivity.
Defined.

(** X17: when the host finds the object, [rotate_object_around_center]
    changes the placement of that object and nothing else: the document
    keeps its length, every other object is as before, the object keeps its
    other properties.  The new placement has the rotation about the given
    axis and maps the centre of the bounding box to itself; it replaces the
    old placement, and for the angle 0 it is the null placement. *)
Theorem rotate_object_around_center_found `{Q : Queries}
        (object_name : string) (axis : AxisArg) (angle : R) (d : Doc)
        (h : handle) (o : Obj.t) :
  getObject d object_name = Some h ->
  nth_error d h = Some o ->
  exists pl : Placement,
    rotate_object_around_center object_name axis angle d
    = (modify h (Obj.set_Placement pl) d, inr tt)
    /\ List.length (modify h (Obj.set_Placement pl) d) = List.length d
    /\ (forall k : handle,
           k <> h ->
           nth_error (modify h (Obj.set_Placement pl) d) k = nth_error d k)
    /\ nth_error (modify h (Obj.set_Placement pl) d) h
       = Some (Obj.set_Placement pl o)
    /\ Rotation_ pl
       = Rotation_axis_angle
           (match axis with AxisTuple t => Vector_of t | AxisVector v => v end)
           angle
    /\ Placement_multVec pl (BoundBox_Center d h) = BoundBox_Center d h
    /\ rotate_object_around_center object_name axis 0 d
       = (modify h (Obj.set_Placement Placement_null) d, inr tt).
Proof.
  intros Hget Hnth.
  unfold rotate_object_around_center, bind, ask, raise, setattr.
  rewrite Hget. cbv zeta. cbn [Rotation_].
  eexists. split; [reflexivity|].
  split; [apply modify_length|].
  split; [intros k Hk; now apply modify_nth_error_other|].
  split; [rewrite modify_nth_error_same, Hnth; reflexivity|].
  split; [reflexivity|].
  split; [apply placement_about_center|].
  rewrite Rotation_axis_angle_0.
  unfold Placement_multVec. cbn [Base Rotation_].
  rewrite multVec_null.
  replace (vadd (BoundBox_Center d h) (vneg (BoundBox_Center d h)))
    with (mkVector 0 0 0); [reflexivity|].
  destruct (BoundBox_Center d h). unfold vadd, vneg; simpl. f_equal; ring.
Qed.

Lemma rotate_object_around_center_found_witness :
  exists pl : Placement,
    rotate_object_around_center (Q := plain_queries) "Cylinder"
                                (AxisTuple (1, 0, 0)) 180 base_plate
    = (modify 0%nat (Obj.set_Placement pl) base_plate, inr tt)
    /\ List.length (modify 0%nat (Obj.set_Placement pl) base_plate)
       = List.length base_plate
    /\ (forall k : handle,
           k <> 0%nat ->
           nth_error (modify 0%nat (Obj.set_Placement pl) base_plate) k
           = nth_error base_plate k)
    /\ nth_error (modify 0%nat (Obj.set_Placement pl) base_plate) 0%nat
       = Some (Obj.set_Placement pl
                 (Obj.mk Part_Cylinder "Cylinder" 95 5 10 10
                         (mkPlacement (mkVector 0 0 0)
                                      (Rotation_axis_angle (mkVector 0 0 1) 0))
                         None None [] None))
    /\ Rotation_ pl = Rotation_axis_angle (mkVector 1 0 0) 180
    /\ Placement_multVec pl (mkVector 0 0 0) = mkVector 0 0 0
    /\ rotate_object_around_center (Q := plain_queries) "Cylinder"
                                   (AxisTuple (1, 0, 0)) 0 base_plate
       = (modify 0%nat (Obj.set_Placement Placement_null) base_plate, inr tt).
Proof.
  apply (rotate_object_around_center_found
           (Q := plain_queries) "Cylinder" (AxisTuple (1, 0, 0)) 180 base_plate
           0%nat
           (Obj.mk Part_Cylinder "Cylinder" 95 5 10 10
                   (mkPlacement (mkVector 0 0 0)
                                (Rotation_axis_angle (mkVector 0 0 1) 0))
                   None None [] None)).
  - reflexivity.
  - reflexivity.
Defined.

(** ** Parking a helper object far away *)

Section ResetRotation.

Context `{K : Kernel}.

Lemma reset_rotation_run (obj : handle) (d : Doc) :
  let box := centered_box 0.001 0.001 0.001
                          (mkVector (- (0.001) / 2) (- (0.001) / 2) 0) in
  let d1 := d ++ [box; compound_of "ResetRotation" [List.length d]] in
  let d2 := d ++ [box; parked_compound (List.length d);
                  boolean_object Part_Cut "Cut" obj (S (List.length d))] in
  reset_rotation obj d =
  if kernel_ok d1
  then (d2, if kernel_ok d2 then inr (S (S (List.length d)))
            else inl RecomputeError)
  else (d1, inl RecomputeError).
Proof.
  intros box d1 d2. unfold reset_rotation, bind.
  rewrite create_centered_rectangle_run. cbv zeta. fold box. fold d1.
  destruct (kernel_ok d1); [|reflexivity].
  unfold setattr at 1. unfold d1.
  rewrite <- (snoc_snoc d box), <- (length_snoc d box), modify_new.
  rewrite cut_run. cbv zeta.
  rewrite !length_snoc.
  replace (((d ++ [box])
              ++ [Obj.set_Placement
                    (mkPlacement (mkVector 100000 100000 100000)
                                 (Rotation_axis_angle (mkVector 0 0 1) 0))
                    (compound_of "ResetRotation" [List.length d])])
             ++ [boolean_object Part_Cut "Cut" obj (S (List.length d))])
    with d2.
  - now destruct (kernel_ok d2).
  - unfold d2. rewrite <- !app_assoc. reflexivity.
Qed.

Lemma parked_compound_solid (d : Doc) (p : Vector) :
  solid (d ++ [centered_box 0.001 0.001 0.001
                            (mkVector (- (0.001) / 2) (- (0.001) / 2) 0);
               parked_compound (List.length d)])
        (S (List.length d)) p
  <-> parked_cube p.
Proof.
  set (box := centered_box 0.001 0.001 0.001
                           (mkVector (- (0.001) / 2) (- (0.001) / 2) 0)).
  rewrite <- (snoc_snoc d box), <- (length_snoc d box).
  rewrite solid_last, solids_from_snoc.
  unfold solid_of_object at 1.
  cbn [parked_compound Obj.TypeId Obj.Placement Obj.Links].
  rewrite placed_upright.
  assert (Hbox : forall q : Vector,
             nth (List.length d)
                 (solids_from [] d ++ [solid_of_object (solids_from [] d) box])
                 empty_solid q
             <-> in_box 0.001 0.001 0.001
                        (vsub q (mkVector (- (0.001) / 2) (- (0.001) / 2) 0))).
  { intro q. rewrite app_nth2 by (rewrite solids_from_length; lia).
    rewrite solids_from_length, Nat.sub_diag. cbn [nth].
    unfold solid_of_object.
    cbn [box centered_box Obj.TypeId Obj.Placement Obj.Length Obj.Width
             Obj.Height].
    apply placed_null. }
  split.
  - intros [h [[<-|[]] Hq]]. apply Hbox in Hq.
    unfold in_box, vsub in Hq. cbn [vx vy vz] in Hq.
    unfold parked_cube. lra.
  - intro Hp. exists (List.length d). split; [now left|].
    apply Hbox. unfold parked_cube in Hp.
    unfold in_box, vsub. cbn [vx vy vz]. lra.
Qed.

End ResetRotation.

(** X18: when [reset_rotation] returns, it has added three objects, a tiny
    box, its compound parked at (100000, 100000, 100000) and a cut, and
    returns the cut.  The cut stands for the given object without the
    points of the parked cube of edge 0.001, so the object comes back with
    the same solid unless it reaches that far. *)
Theorem reset_rotation_keeps_solid `{K : Kernel}
        (obj h : handle) (d d' : Doc) (p : Vector) :
  reset_rotation obj d = (d', inr h) ->
  (obj < List.length d)%nat ->
  h = S (S (List.length d))
  /\ List.length d' = (List.length d + 3)%nat
  /\ retains d d'
  /\ nth_error d' h = Some (boolean_object Part_Cut "Cut" obj (S (List.length d)))
  /\ (solid d' h p <-> solid d obj p /\ ~ parked_cube p).
Proof.
  rewrite reset_rotation_run. cbv zeta.
  destruct (kernel_ok _); [|discriminate].
  destruct (kernel_ok _); [|discriminate].
  intros [= <- <-] Hobj.
  split; [reflexivity|].
  split; [rewrite length_app; reflexivity|].
  split; [apply retains_app|].
  set (box := centered_box 0.001 0.001 0.001
                           (mkVector (- (0.001) / 2) (- (0.001) / 2) 0)).
  set (cutobj := boolean_object Part_Cut "Cut" obj (S (List.length d))).
  assert (Hd : d ++ [box; parked_compound (List.length d); cutobj]
               = (d ++ [box; parked_compound (List.length d)]) ++ [cutobj]).
  { now rewrite <- app_assoc. }
  assert (Hlen : List.length (d ++ [box; parked_compound (List.length d)])
                 = S (S (List.length d))).
  { rewrite length_app. simpl. lia. }
  rewrite Hd, <- Hlen. split.
  - rewrite nth_error_app2 by lia. now rewrite Nat.sub_diag.
  - rewrite solid_last. unfold solid_of_object.
    cbn [cutobj boolean_object Obj.TypeId Obj.Base Obj.Tool linked].
    fold (solid (d ++ [box; parked_compound (List.length d)]) obj).
    fold (solid (d ++ [box; parked_compound (List.length d)]) (S (List.length d))).
    rewrite solid_retained by assumption.
    unfold box. rewrite parked_compound_solid. reflexivity.
Qed.

Lemma reset_rotation_keeps_solid_witness :
  3%nat = 3%nat
  /\ List.length (fst (reset_rotation (K := accepting_kernel) 0%nat unit_cylinder))
     = (List.length unit_cylinder + 3)%nat
  /\ retains unit_cylinder
             (fst (reset_rotation (K := accepting_kernel) 0%nat unit_cylinder))
  /\ nth_error (fst (reset_rotation (K := accepting_kernel) 0%nat unit_cylinder)) 3%nat
     = Some (boolean_object Part_Cut "Cut" 0%nat 2%nat)
  /\ (solid (fst (reset_rotation (K := accepting_kernel) 0%nat unit_cylinder)) 3%nat
            (mkVector 0 0 0)
      <-> solid unit_cylinder 0%nat (mkVector 0 0 0) /\ ~ parked_cube (mkVector 0 0 0)).
Proof.
  change (3%nat = 3%nat) with (3%nat = S (S (List.length unit_cylinder))).
  apply (reset_rotation_keeps_solid
           (K := accepting_kernel) 0%nat 3%nat unit_cylinder
           (fst (reset_rotation (K := accepting_kernel) 0%nat unit_cylinder))
           (mkVector 0 0 0)).
  - reflexivity.
  - simpl. lia.
Defined.

(** ** The corners of the centred triangle *)

Lemma sqrt3_sqr : sqrt 3 * sqrt 3 = 3.
Proof. apply sqrt_sqrt. lra. Qed.

(** X19: the three corners [create_centered_triangle] computes lie in the
    plane Z = 0, have their centroid at the origin, and are at the distance
    [side_length] from one another: the triangle is equilateral, as the
    docstring says. *)
Theorem create_centered_triangle_vertices_equilateral (side_length : R) :
  vadd (fst (fst (create_centered_triangle_vertices side_length)))
       (vadd (snd (fst (create_centered_triangle_vertices side_length)))
             (snd (create_centered_triangle_vertices side_length)))
  = mkVector 0 0 0
  /\ vz (fst (fst (create_centered_triangle_vertices side_length))) = 0
  /\ vz (snd (fst (create_centered_triangle_vertices side_length))) = 0
  /\ vz (snd (create_centered_triangle_vertices side_length)) = 0
  /\ norm2 (vsub (snd (fst (create_centered_triangle_vertices side_length)))
                 (fst (fst (create_centered_triangle_vertices side_length))))
     = side_length * side_length
  /\ norm2 (vsub (snd (create_centered_triangle_vertices side_length))
                 (snd (fst (create_centered_triangle_vertices side_length))))
     = side_length * side_length
  /\ norm2 (vsub (fst (fst (create_centered_triangle_vertices side_length)))
                 (snd (create_centered_triangle_vertices side_length)))
     = side_length * side_length.
Proof.
  unfold create_centered_triangle_vertices; cbv zeta; cbn [fst snd].
  unfold vadd, vsub, norm2; cbn [vx vy vz].
  pose proof sqrt3_sqr as H3.
  repeat split.
  - f_equal; field.
  - field.
  - transitivity (side_length * side_length / 4
                  + (sqrt 3 * sqrt 3) * (side_length * side_length) / 4); [field|].
    rewrite H3. field.
  - transitivity (side_length * side_length / 4
                  + (sqrt 3 * sqrt 3) * (side_length * side_length) / 4); [field|].
    rewrite H3. field.
Qed.

(** ** The bore of a bearing *)

Lemma compound_rotation_radial (a t : R) :
  multVec (compound_rotation [(0, 90, 0); (a, 0, 0)]) (mkVector 0 0 t)
  = mkVector (t * cos (radians a)) (t * sin (radians a)) 0.
Proof.
  rewrite compound_rotation_pitch_then_yaw, multVec_multiply, radians_90.
  unfold rot_z, rot_y, multVec; cbn [vx vy vz r11 r12 r13 r21 r22 r23 r31 r32 r33].
  rewrite cos_PI2, sin_PI2. f_equal; ring.
Qed.

(** X20: the recipes bore the bearing seats with the rotation list
    [(0,90,0); (angle,0,0)] and no through-hole shift.  The axis of that
    tool is the horizontal ray that leaves the hole position at [angle]
    degrees from the X axis: every point of the ray up to the tool height
    is in the tool. *)
Theorem make_hole_radial_bore `{K : Kernel}
        (part : handle) (hole_diameter hole_height : R)
        (hole_position : Triple) (angle t : R) (d : Doc) :
  0 <= t <= hole_height ->
  exists tool : Obj.t,
    nth_error
      (fst (make_hole part hole_diameter hole_height hole_position
                      (ListOf [(0, 90, 0); (angle, 0, 0)]) false d))
      (List.length d) = Some tool
    /\ multVec (Rotation_ (Obj.Placement tool)) (mkVector 0 0 1)
       = mkVector (cos (radians angle)) (sin (radians angle)) 0
    /\ cylinder_solid tool
         (vadd (Vector_of hole_position)
               (mkVector (t * cos (radians angle)) (t * sin (radians angle)) 0)).
Proof.
  intro Ht.
  exists (hole_tool hole_diameter hole_height hole_position
                    (ListOf [(0, 90, 0); (angle, 0, 0)]) false).
  split; [apply make_hole_tool|].
  unfold cylinder_solid, hole_tool.
  cbn [Obj.Placement Obj.Radius Obj.Height hole_rotation_of Rotation_].
  split.
  - rewrite compound_rotation_radial. f_equal; ring.
  - exists (mkVector 0 0 t). split.
    + unfold in_cylinder; cbn [vx vy vz]. split; [nra | exact Ht].
    + cbn [Base Rotation_]. now rewrite compound_rotation_radial.
Qed.

Lemma make_hole_radial_bore_witness :
  exists tool : Obj.t,
    nth_error
      (fst (make_hole (K := accepting_kernel) 0%nat 8 1000 (0, 0, 12)
                      (ListOf [(0, 90, 0); (45, 0, 0)]) false base_plate))
      (List.length base_plate) = Some tool
    /\ multVec (Rotation_ (Obj.Placement tool)) (mkVector 0 0 1)
       = mkVector (cos (radians 45)) (sin (radians 45)) 0
    /\ cylinder_solid tool
         (vadd (Vector_of (0, 0, 12))
               (mkVector (70 * cos (radians 45)) (70 * sin (radians 45)) 0)).
Proof.
  apply (make_hole_radial_bore (K := accepting_kernel) 0%nat 8 1000 (0, 0, 12)
                               45 70 base_plate).
  lra.
Defined.
